(** * ReactionTimeLab: the scoreboard store and the click state machine

    A shallow embedding of [S10/reactiontimelab.py].  The JSON scoreboard
    functions ([load_scores], [save_scores], [register_or_get_user],
    [update_score], [get_top5]), the username prompt
    ([ask_username_console]) and the event handling of the main loop are
    written as functions over an explicit storage state; Python exceptions
    are results of type [outcome].  What the program prints and draws is
    left out: it touches neither the session nor the storage. *)

From Stdlib Require Import ZArith QArith Qround List String Ascii Bool Lia.
From Stdlib Require Import Sorted Permutation DecimalString.
Import ListNotations.
Local Open Scope string_scope.
Local Open Scope Q_scope.

Set Warnings "-register-all".
Set Warnings "-automation".

(* ------------------------------------------------------------------ *)
(** ** Python values *)

(** A Python [float].  A finite float is represented by the rational number
    it denotes; the three special values are kept apart, because the
    program stores [float("inf")] for a player without a score. *)
Inductive pyfloat : Type :=
| FNaN
| FPosInf
| FNegInf
| FFin (q : Q).

(** The values that [json.load] produces: [None], [bool], [int], [float],
    [str], [list] and [dict].  A [dict] keeps its keys in insertion order,
    as Python's does, so it is an association list; the operations below
    never create a second binding for a key. *)
Inductive value : Type :=
| VNone
| VBool (b : bool)
| VInt (z : Z)
| VFloat (f : pyfloat)
| VStr (s : string)
| VList (l : list value)
| VDict (d : list (string * value)).

Definition dict := list (string * value).

(** The exceptions that the modelled code can meet.  [UnicodeDecodeError]
    and [RecursionError] are what reading and parsing a file can raise
    besides [JSONDecodeError] and [IOError].  [SystemExit] is what
    [sys.exit()] raises; it is not an [Exception].  [NotModelled] marks the
    one comparison of the sort in [get_top5] that the embedding leaves out
    (two stored values that are both lists). *)
Inductive exn : Type :=
| TypeError
| KeyError
| IOError
| JSONDecodeError
| UnicodeDecodeError
| RecursionError
| EOFError
| SystemExit
| NotModelled.

Inductive outcome (A : Type) : Type :=
| Ok (a : A)
| Raise (e : exn).
Arguments Ok {A} a.
Arguments Raise {A} e.

(* ------------------------------------------------------------------ *)
(** ** Comparisons *)

Definition Qltb (x y : Q) : bool := negb (Qle_bool y x).

(** [a < b] on floats: false whenever a NaN takes part. *)
Definition float_ltb (a b : pyfloat) : bool :=
  match a, b with
  | FNaN, _ | _, FNaN => false
  | FPosInf, _ => false
  | _, FNegInf => false
  | FNegInf, _ => true
  | FFin _, FPosInf => true
  | FFin x, FFin y => Qltb x y
  end.

(** Python compares [int], [bool] and [float] by their exact numeric
    value; every other type has no number. *)
Definition as_number (v : value) : option pyfloat :=
  match v with
  | VFloat f => Some f
  | VInt z => Some (FFin (inject_Z z))
  | VBool b => Some (FFin (if b then 1 else 0))
  | _ => None
  end.

(** [new_score < old] with a float on the left, as in [update_score]:
    a [TypeError] when [old] is not a number. *)
Definition float_lt_value (a : pyfloat) (v : value) : outcome bool :=
  match as_number v with
  | Some b => Ok (float_ltb a b)
  | None => Raise TypeError
  end.

(** [a < b] between two stored values, as the sort of [get_top5] uses it
    on its keys.  Numbers compare by value and strings by code point; two
    lists are compared element by element in Python, which is left out
    here; any other pair raises [TypeError]. *)
Definition value_lt (a b : value) : outcome bool :=
  match as_number a, as_number b with
  | Some x, Some y => Ok (float_ltb x y)
  | _, _ =>
      match a, b with
      | VStr s, VStr t => Ok (String.ltb s t)
      | VList _, VList _ => Raise NotModelled
      | _, _ => Raise TypeError
      end
  end.

(** [v != float("inf")]: only the float [inf] itself is equal to it. *)
Definition ne_inf (v : value) : bool :=
  match v with
  | VFloat FPosInf => false
  | _ => true
  end.

(* ------------------------------------------------------------------ *)
(** ** Dictionaries *)

Fixpoint dict_get (k : string) (d : dict) : option value :=
  match d with
  | [] => None
  | (k', v) :: d' => if String.eqb k k' then Some v else dict_get k d'
  end.

(** [k in d] *)
Definition dict_mem (k : string) (d : dict) : bool :=
  match dict_get k d with Some _ => true | None => false end.

(** [d[k] = v]: an existing key keeps its position, a new key goes last. *)
Fixpoint dict_set (k : string) (v : value) (d : dict) : dict :=
  match d with
  | [] => [(k, v)]
  | (k', v') :: d' =>
      if String.eqb k k' then (k', v) :: d' else (k', v') :: dict_set k v d'
  end.

(** [d.get(k, default)] *)
Definition dict_get_default (k : string) (default : value) (d : dict) : value :=
  match dict_get k d with Some v => v | None => default end.

(** ["players" in data], for whatever [json.load] returned: key membership
    in a dict, element membership in a list, substring test in a string,
    and a [TypeError] for a value that is not a container. *)
Definition is_substring (s t : string) : bool :=
  match String.index 0 s t with Some _ => true | None => false end.

Definition is_str (s : string) (v : value) : bool :=
  match v with VStr t => String.eqb s t | _ => false end.

Definition py_contains (k : string) (data : value) : outcome bool :=
  match data with
  | VDict d => Ok (dict_mem k d)
  | VList l => Ok (existsb (is_str k) l)
  | VStr t => Ok (is_substring k t)
  | _ => Raise TypeError
  end.

(** [data[k]] with a string [k]: only a dict can be indexed by a string. *)
Definition py_getitem (data : value) (k : string) : outcome value :=
  match data with
  | VDict d => match dict_get k d with Some v => Ok v | None => Raise KeyError end
  | _ => Raise TypeError
  end.

(** [isinstance(v, dict)] *)
Definition is_dict (v : value) : bool :=
  match v with VDict _ => true | _ => false end.

(** [data[k1][k2] = v] *)
Definition py_setitem2 (data : value) (k1 k2 : string) (v : value) : outcome value :=
  match data with
  | VDict d =>
      match dict_get k1 d with
      | Some (VDict inner) => Ok (VDict (dict_set k1 (VDict (dict_set k2 v inner)) d))
      | Some _ => Raise TypeError
      | None => Raise KeyError
      end
  | _ => Raise TypeError
  end.

(* ------------------------------------------------------------------ *)
(** ** Persistent storage *)

(** What the file at [DB_PATH] holds, by what reading it with
    [json.load] does:
    - [Unparseable]: text that is not well-formed JSON; [json.load] raises
      [JSONDecodeError];
    - [Undecodable]: bytes that are not text in the encoding of the file;
      reading raises [UnicodeDecodeError];
    - [TooDeeplyNested]: JSON nested beyond the recursion limit;
      [json.load] raises [RecursionError];
    - [Parsed v]: text that [json.load] reads as the value [v].
    [json.dump] writes [float("inf")] as the token [Infinity] and
    [json.load] reads that token back as [float("inf")], so a written value
    is represented by itself. *)
Inductive content : Type :=
| Unparseable
| Undecodable
| TooDeeplyNested
| Parsed (v : value).

(** The storage location: the file (if any), whether opening it for
    reading and for writing succeeds, and how many writes were completed. *)
Record storage : Type := mkStorage {
  file : option content;
  readable : bool;
  writable : bool;
  writes : nat
}.

(** Computations that use the storage and may raise. *)
Definition M (A : Type) : Type := storage -> outcome A * storage.

Definition ret {A} (a : A) : M A := fun fs => (Ok a, fs).

Definition bind {A B} (m : M A) (k : A -> M B) : M B :=
  fun fs =>
    match m fs with
    | (Ok a, fs') => k a fs'
    | (Raise e, fs') => (Raise e, fs')
    end.

Definition raise {A} (e : exn) : M A := fun fs => (Raise e, fs).

(** A pure step that may raise. *)
Definition lift {A} (o : outcome A) : M A := fun fs => (o, fs).

(** [try: body  except <handles> as e: handler] *)
Definition try_except {A} (body : M A) (handles : exn -> bool)
  (handler : exn -> M A) : M A :=
  fun fs =>
    match body fs with
    | (Ok a, fs') => (Ok a, fs')
    | (Raise e, fs') => if handles e then handler e fs' else (Raise e, fs')
    end.

Declare Scope py_scope.
Delimit Scope py_scope with py.
Notation "x <- m ;; k" := (bind m (fun x => k))
  (at level 61, m at next level, right associativity) : py_scope.
Notation "m ;;; k" := (bind m (fun _ => k))
  (at level 61, right associativity) : py_scope.
Local Open Scope py_scope.

(** [except Exception] *)
Definition any_exception (e : exn) : bool :=
  match e with
  | SystemExit => false
  | _ => true
  end.

(** [except (json.JSONDecodeError, IOError)] *)
Definition decode_or_io (e : exn) : bool :=
  match e with
  | JSONDecodeError | IOError => true
  | _ => false
  end.

(** [os.path.exists(DB_PATH)] *)
Definition path_exists : M bool :=
  fun fs => (Ok (match file fs with Some _ => true | None => false end), fs).

(** [with open(DB_PATH, "w") as f: json.dump(data, f, indent=4)] *)
Definition dump_to_file (data : value) : M unit :=
  fun fs =>
    if writable fs
    then (Ok tt, mkStorage (Some (Parsed data)) (readable fs) (writable fs) (S (writes fs)))
    else (Raise IOError, fs).

(** [with open(DB_PATH, "r") as f: data = json.load(f)] *)
Definition load_from_file : M value :=
  fun fs =>
    match file fs with
    | None => (Raise IOError, fs)
    | Some c =>
        if readable fs
        then match c with
             | Parsed v => (Ok v, fs)
             | Unparseable => (Raise JSONDecodeError, fs)
             | Undecodable => (Raise UnicodeDecodeError, fs)
             | TooDeeplyNested => (Raise RecursionError, fs)
             end
        else (Raise IOError, fs)
    end.

(** [{"players": {}}] *)
Definition empty_scoreboard : value := VDict [("players", VDict [])].

(* ------------------------------------------------------------------ *)
(** ** The scoreboard functions *)

(** The [try] block of [load_scores] (lines 56-69). *)
Definition read_scores : M value :=
  try_except
    (data <- load_from_file ;;
     has <- lift (py_contains "players" data) ;;
     if negb has then ret empty_scoreboard
     else
       p <- lift (py_getitem data "players") ;;
       if negb (is_dict p) then ret empty_scoreboard else ret data)
    decode_or_io
    (fun _ =>
       try_except (dump_to_file empty_scoreboard) any_exception (fun _ => ret tt) ;;;
       ret empty_scoreboard).

Definition load_scores : M value :=
  ex <- path_exists ;;
  if negb ex then
    created <- try_except (dump_to_file empty_scoreboard ;;; ret true)
                          any_exception (fun _ => ret false) ;;
    if created then read_scores else ret empty_scoreboard
  else read_scores.

Definition save_scores (data : value) : M unit :=
  try_except (dump_to_file data) any_exception (fun _ => ret tt).

Definition unset : value := VFloat FPosInf.

Definition register_or_get_user (name : string) : M value :=
  db <- load_scores ;;
  players <- lift (py_getitem db "players") ;;
  has <- lift (py_contains name players) ;;
  if negb has then
    db' <- lift (py_setitem2 db "players" name unset) ;;
    save_scores db' ;;;
    players' <- lift (py_getitem db' "players") ;;
    lift (py_getitem players' name)
  else
    lift (py_getitem players name).

(** [db["players"].get(name, float("inf"))] *)
Definition py_get_default (players : value) (name : string) (default : value)
  : outcome value :=
  match players with
  | VDict d => Ok (dict_get_default name default d)
  | _ => Raise TypeError
  end.

Definition update_score (name : string) (new_score : pyfloat) : M bool :=
  db <- load_scores ;;
  players <- lift (py_getitem db "players") ;;
  old <- lift (py_get_default players name unset) ;;
  try_except
    (better <- lift (float_lt_value new_score old) ;;
     if better then
       db' <- lift (py_setitem2 db "players" name (VFloat new_score)) ;;
       save_scores db' ;;;
       ret true
     else ret false)
    any_exception
    (fun _ => ret false).

(* ------------------------------------------------------------------ *)
(** ** The ranking query *)

Definition entry : Type := string * value.

Definition dict_keys (d : dict) : list string := map fst d.

(** [9999.0], the display value of a player without a score, and [0.0],
    the score of a placeholder. *)
Definition display_unset : value := VFloat (FFin 9999).
Definition placeholder_score : value := VFloat (FFin 0).

(** [(u, players[u] if players[u] != float("inf") else 9999.0)] *)
Definition normalize_entry (players : dict) (u : string) : outcome entry :=
  match dict_get u players with
  | Some v => Ok (u, if ne_inf v then v else display_unset)
  | None => Raise KeyError
  end.

Fixpoint map_outcome {A B} (f : A -> outcome B) (l : list A) : outcome (list B) :=
  match l with
  | [] => Ok []
  | x :: l' =>
      match f x with
      | Raise e => Raise e
      | Ok y =>
          match map_outcome f l' with
          | Raise e => Raise e
          | Ok r => Ok (y :: r)
          end
      end
  end.

(** [[... for u in players]] *)
Definition normalized (players : dict) : outcome (list entry) :=
  map_outcome (normalize_entry players) (dict_keys players).

(** [sorted(l, key=lambda x: x[1])].  Python's sort is stable and looks at
    the keys through [<] only, so on keys that [<] orders totally its
    result is the one list that is ordered and keeps equal keys in their
    original order; the insertion sort below computes that list.  [x] is
    put in front of the first [y] that is not smaller than it.

    Outside of that domain the function below is not Python's: with a NaN
    among the keys [<] is no total order and [sorted] may return another
    arrangement of the same entries, and two keys that are both lists
    raise [NotModelled] here.  Every statement below about the order of a
    ranking is made for keys that are numbers other than NaN
    ([all_times]); what is stated for other keys (the number of entries,
    a [TypeError] on [null]) does not depend on the arrangement. *)
Fixpoint insert_entry (x : entry) (l : list entry) : outcome (list entry) :=
  match l with
  | [] => Ok [x]
  | y :: l' =>
      match value_lt (snd y) (snd x) with
      | Raise e => Raise e
      | Ok false => Ok (x :: y :: l')
      | Ok true =>
          match insert_entry x l' with
          | Raise e => Raise e
          | Ok r => Ok (y :: r)
          end
      end
  end.

Fixpoint py_sorted (l : list entry) : outcome (list entry) :=
  match l with
  | [] => Ok []
  | x :: l' =>
      match py_sorted l' with
      | Raise e => Raise e
      | Ok r => insert_entry x r
      end
  end.

(** [f"user{n}"] *)
Definition placeholder_name (n : nat) : string :=
  "user" ++ NilEmpty.string_of_uint (Nat.to_uint n).

(** [while len(sorted_players) < 5: sorted_players.append(...)]; every
    round makes the list longer, so five rounds are enough (see
    [pad_placeholders_length]). *)
Fixpoint pad_placeholders (fuel : nat) (l : list entry) : list entry :=
  if Nat.ltb (List.length l) 5 then
    match fuel with
    | O => l
    | S fuel' =>
        pad_placeholders fuel'
          (l ++ [(placeholder_name (List.length l + 1), placeholder_score)])%list
    end
  else l.

Definition get_top5 : M (list entry) :=
  db <- load_scores ;;
  players <- lift (py_get_default db "players" (VDict [])) ;;
  match players with
  | VDict d =>
      norm <- lift (normalized d) ;;
      sorted_players <- lift (py_sorted norm) ;;
      ret (firstn 5 (pad_placeholders 5 sorted_players))
  | _ => raise TypeError
  end.

(* ------------------------------------------------------------------ *)
(** ** The username prompt *)

(** Characters are code points below 256.  [is_space] is [str.isspace] and
    [lower_char] is [str.lower] on that range. *)
Definition is_space (c : ascii) : bool :=
  let n := nat_of_ascii c in
  ((9 <=? n) && (n <=? 13) || (28 <=? n) && (n <=? 32)
   || (n =? 133) || (n =? 160))%nat.

Definition lower_char (c : ascii) : ascii :=
  let n := nat_of_ascii c in
  if ((65 <=? n) && (n <=? 90)
      || (192 <=? n) && (n <=? 222) && negb (n =? 215))%nat
  then ascii_of_nat (n + 32) else c.

Fixpoint lower (s : string) : string :=
  match s with
  | EmptyString => EmptyString
  | String c s' => String (lower_char c) (lower s')
  end.

Fixpoint lstrip (s : string) : string :=
  match s with
  | EmptyString => EmptyString
  | String c s' => if is_space c then lstrip s' else s
  end.

Fixpoint rstrip (s : string) : string :=
  match s with
  | EmptyString => EmptyString
  | String c s' =>
      match rstrip s' with
      | EmptyString => if is_space c then EmptyString else String c EmptyString
      | r => String c r
      end
  end.

(** [s.strip()] *)
Definition strip (s : string) : string := rstrip (lstrip s).

(** [typed] is what [input(...)] does: it returns the line that was typed,
    or raises (end of input, say). *)
Definition ask_username_console (typed : outcome string) : outcome string :=
  match
    match typed with
    | Ok line => Ok (strip line)
    | Raise e => if any_exception e then Ok "" else Raise e
    end
  with
  | Raise e => Raise e
  | Ok username =>
      let username := if String.eqb username "" then "guest" else username in
      Ok (lower username)
  end.

(* ------------------------------------------------------------------ *)
(** ** The main loop *)

Inductive game_state_t : Type := start | waiting | click | result | scores.

(** [last_update_message]; the reaction time is the number that the
    f-string shows. *)
Inductive message : Type :=
| NoMessage
| NewBest (reaction : Q)
| NotImproved (reaction : Q)
| UpdateError (e : exn).

Record session : Type := mkSession {
  game_state : game_state_t;
  start_time : option Q;
  end_time : option Q;
  waiting_delay : option Q;
  delay_start : option Q;
  last_update_message : message
}.

Definition initial_session : session :=
  mkSession start None None None None NoMessage.

Inductive event : Type :=
| QUIT
| MOUSEBUTTONDOWN (button : nat)
| OtherEvent.

(** What one event meets in its surroundings: whether the pointer is over
    the scores button ([scores_button_rect.collidepoint(mouse_pos)]), what
    [random.uniform(3, 7)] would return and what [time.time()] reads. *)
Record env : Type := mkEnv {
  over_scores_button : bool;
  uniform_3_7 : Q;
  now : Q
}.

(** [round(x, 3)]: the nearest multiple of 1/1000, a tie going to the even
    one. *)
Definition round_half_even (q : Q) : Z :=
  let f := Qfloor q in
  let r := q - inject_Z f in
  if Qltb r (1 # 2) then f
  else if Qltb (1 # 2) r then (f + 1)%Z
  else if Z.even f then f else (f + 1)%Z.

Definition round3 (q : Q) : Q := Qmake (round_half_even (q * 1000)) 1000.

(** [a - b] on two timestamps, one of which may still be [None]. *)
Definition time_sub (a b : option Q) : outcome Q :=
  match a, b with
  | Some x, Some y => Ok (x - y)
  | _, _ => Raise TypeError
  end.

(** The body of [for event in pygame.event.get()] (lines 188-226). *)
Definition handle_event (username : string) (ev : env) (e : event) (s : session)
  : M session :=
  match e with
  | QUIT => raise SystemExit
  | MOUSEBUTTONDOWN 1 =>
      match game_state s with
      | start =>
          if over_scores_button ev
          then ret (mkSession scores (start_time s) (end_time s) (waiting_delay s)
                      (delay_start s) (last_update_message s))
          else ret (mkSession waiting (start_time s) (end_time s)
                      (Some (uniform_3_7 ev)) (Some (now ev))
                      (last_update_message s))
      | click =>
          let end_time' := Some (now ev) in
          d <- lift (time_sub end_time' (start_time s)) ;;
          let reaction := round3 d in
          msg <- try_except
                   (mejoro <- update_score username (FFin reaction) ;;
                    if (mejoro : bool) then ret (NewBest reaction)
                    else ret (NotImproved reaction))
                   any_exception
                   (fun e => ret (UpdateError e)) ;;
          ret (mkSession result (start_time s) end_time' (waiting_delay s)
                 (delay_start s) msg)
      | result =>
          ret (mkSession start (start_time s) (end_time s) (waiting_delay s)
                 (delay_start s) (last_update_message s))
      | scores =>
          ret (mkSession start (start_time s) (end_time s) (waiting_delay s)
                 (delay_start s) (last_update_message s))
      | waiting => ret s
      end
  | _ => ret s
  end.

(** The events of one frame, each with its surroundings. *)
Fixpoint handle_events (username : string) (evs : list (env * event)) (s : session)
  : M session :=
  match evs with
  | [] => ret s
  | (ev, e) :: evs' =>
      s' <- handle_event username ev e s ;;
      handle_events username evs' s'
  end.

(** The state logic after the events (lines 231-237), with one clock
    reading for the frame. *)
Definition state_logic (t : Q) (s : session) : outcome session :=
  match game_state s with
  | waiting =>
      let ds := match delay_start s with Some d => d | None => t end in
      match waiting_delay s with
      | None => Raise TypeError
      | Some w =>
          if Qle_bool w (t - ds)
          then Ok (mkSession click (Some t) (end_time s) (waiting_delay s)
                     (Some ds) (last_update_message s))
          else Ok (mkSession waiting (start_time s) (end_time s) (waiting_delay s)
                     (Some ds) (last_update_message s))
      end
  | _ => Ok s
  end.

(** One turn of [while running]: the events, the state logic, and the
    drawing, of which only the call of [get_top5] on the scores screen
    touches the storage. *)
Definition frame (username : string) (evs : list (env * event)) (t : Q) (s : session)
  : M session :=
  s1 <- handle_events username evs s ;;
  s2 <- lift (state_logic t s1) ;;
  match game_state s2 with
  | scores => get_top5 ;;; ret s2
  | _ => ret s2
  end.

(* ------------------------------------------------------------------ *)
(** ** What the storage holds, as the specification speaks of it *)

(** The scoreboard that is stored: the ["players"] mapping of the document
    when the file holds an object with such a mapping, and no player at all
    otherwise. *)
Definition players_of (c : option content) : dict :=
  match c with
  | Some (Parsed (VDict d)) =>
      match dict_get "players" d with
      | Some (VDict p) => p
      | _ => []
      end
  | _ => []
  end.

Definition scoreboard (fs : storage) : dict := players_of (file fs).

(** The record of a player, if there is one. *)
Definition record_of (fs : storage) (u : string) : option value :=
  dict_get u (scoreboard fs).

(** The best time of a player; a player without a record counts as unset. *)
Definition best (fs : storage) (u : string) : value :=
  dict_get_default u unset (scoreboard fs).

(** The file is absent, is malformed JSON text, or holds a JSON object. *)
Definition object_or_fresh (c : option content) : bool :=
  match c with
  | None | Some Unparseable | Some (Parsed (VDict _)) => true
  | _ => false
  end.

(** The storage works: the file can be read and written, and what it holds
    is a JSON object or text that [json.load] rejects as malformed JSON. *)
Definition storage_ok (fs : storage) : bool :=
  readable fs && writable fs && object_or_fresh (file fs).



(** The storage after a completed write of [data]. *)
Definition written (data : value) (fs : storage) : storage :=
  mkStorage (Some (Parsed data)) (readable fs) (writable fs) (S (writes fs)).

(** The document [d], whose players are [p], with the record of [u] set to
    [v]. *)
Definition with_record (d : dict) (p : dict) (u : string) (v : value) : value :=
  VDict (dict_set "players" (VDict (dict_set u v p)) d).

(** The storage that a computation leaves. *)
Definition storage_after {A} (m : M A) (fs : storage) : storage := snd (m fs).

(** [db["players"][name]] *)
Definition player_value (db : value) (name : string) : outcome value :=
  match py_getitem db "players" with
  | Ok players => py_getitem players name
  | Raise e => Raise e
  end.

(** *** The order of times *)

(** [a < b] as a relation on floats, through the order of the rationals. *)
Definition float_lt (a b : pyfloat) : Prop :=
  match a, b with
  | FFin x, FFin y => x < y
  | FFin _, FPosInf => True
  | FNegInf, FFin _ => True
  | FNegInf, FPosInf => True
  | _, _ => False
  end.

(** [a <= b] on floats that are not NaN. *)
Definition float_le (a b : pyfloat) : Prop :=
  match a, b with
  | FNaN, _ | _, FNaN => False
  | FNegInf, _ => True
  | _, FPosInf => True
  | FFin x, FFin y => x <= y
  | _, _ => False
  end.

(** The candidate [t] is strictly less than the stored value [v]. *)
Definition improves (t : pyfloat) (v : value) : Prop :=
  match as_number v with
  | Some x => float_lt t x
  | None => False
  end.

(** The best time [new] is not greater than [old]: it is the same value,
    or a time strictly less than [old]. *)
Definition not_increased (old new : value) : Prop :=
  new = old \/ exists t, new = VFloat t /\ improves t old.

(** *** Sequences of operations *)

(** The operations of the store, and what a sequence of them leaves in the
    storage (a call that raises leaves what it had done until then). *)
Inductive store_op : Type :=
| OpLoad
| OpRegister (u : string)
| OpUpdate (u : string) (t : pyfloat)
| OpTop5.

Definition run_op (o : store_op) (fs : storage) : storage :=
  match o with
  | OpLoad => storage_after load_scores fs
  | OpRegister u => storage_after (register_or_get_user u) fs
  | OpUpdate u t => storage_after (update_score u t) fs
  | OpTop5 => storage_after get_top5 fs
  end.

Definition run_ops (ops : list store_op) (fs : storage) : storage :=
  fold_left (fun acc o => run_op o acc) ops fs.

(** One save/load cycle: load the scoreboard and save what was loaded. *)
Definition save_load_cycle : M unit :=
  db <- load_scores ;;
  save_scores db.

Definition cycles (n : nat) (fs : storage) : storage :=
  Nat.iter n (storage_after save_load_cycle) fs.

(** *** The ranking *)

(** The score that the ranking shows for a stored value. *)
Definition display (v : value) : value := if ne_inf v then v else display_unset.

(** One entry for every player of the scoreboard, with the score shown. *)
Definition ranking_entries (p : dict) : list entry :=
  map (fun u => (u, display (dict_get_default u unset p))) (dict_keys p).

(** The placeholders that fill a ranking of [n] players up to five. *)
Definition placeholders (n : nat) : list entry :=
  map (fun k => (placeholder_name k, placeholder_score)) (seq (n + 1) (5 - n)).

(** A stored value that is a number and not NaN: a finite time, or one of
    the infinities. *)
Definition is_time (v : value) : bool :=
  match as_number v with
  | Some FNaN | None => false
  | Some _ => true
  end.

Definition all_times (p : dict) : bool := forallb (fun kv => is_time (snd kv)) p.

Definition timed (e : entry) : Prop := is_time (snd e) = true.

(** The order of the ranking: the score of [a] is at most that of [b]. *)
Definition score_le (a b : entry) : Prop :=
  match as_number (snd a), as_number (snd b) with
  | Some x, Some y => float_le x y
  | _, _ => False
  end.

(** *** White space *)

(** Whether a string is made of white space only, and whether its first
    and its last character are white space. *)
Fixpoint all_space (s : string) : bool :=
  match s with
  | EmptyString => true
  | String c s' => is_space c && all_space s'
  end.

Definition first_is_space (s : string) : bool :=
  match s with
  | EmptyString => false
  | String c _ => is_space c
  end.

Fixpoint last_is_space (s : string) : bool :=
  match s with
  | EmptyString => false
  | String c EmptyString => is_space c
  | String _ s' => last_is_space s'
  end.

(** *** Clicks *)

Definition is_click (e : env * event) : bool :=
  match snd e with
  | MOUSEBUTTONDOWN 1 => true
  | _ => false
  end.

(* ------------------------------------------------------------------ *)
(** ** Inputs of the examples *)

(** No file yet. *)
Definition alice_new_storage : storage := mkStorage None true true 0.

(** The scoreboard [{bob: 0.300, carol: 0.210}]. *)
Definition bob_carol_storage : storage :=
  mkStorage
    (Some (Parsed (VDict [("players",
                           VDict [("bob", VFloat (FFin (3 # 10)));
                                  ("carol", VFloat (FFin (21 # 100)))])])))
    true true 0.

(** The scoreboard [{dana: 0.100}]. *)
Definition dana_storage : storage :=
  mkStorage
    (Some (Parsed (VDict [("players", VDict [("dana", VFloat (FFin (1 # 10)))])])))
    true true 0.

(** The scoreboard [{ana: unset, ben: 10000.0}]. *)
Definition ana_ben_storage : storage :=
  mkStorage
    (Some (Parsed (VDict [("players",
                           VDict [("ana", VFloat FPosInf);
                                  ("ben", VFloat (FFin 10000))])])))
    true true 0.


(** A file of malformed JSON text. *)
Definition garbage_storage : storage := mkStorage (Some Unparseable) true true 0.

(** A valid empty scoreboard on a storage that refuses writes. *)
Definition read_only_storage : storage :=
  mkStorage (Some (Parsed empty_scoreboard)) true false 0.

(** A session that waits for the stimulus: the delay of 5 s started at
    time 100. *)
Definition waiting_session : session :=
  mkSession waiting None None (Some 5) (Some 100) NoMessage.

(* ------------------------------------------------------------------ *)
(** ** The start of the program and the loop as a whole *)

(** Lines 41 and 120: the username is asked once, before the loop, and
    registered. *)
Definition startup (typed : outcome string) : M string :=
  username <- lift (ask_username_console typed) ;;
  register_or_get_user username ;;;
  ret username.

(** [while running]: one frame after the other, each with its events and
    its clock reading. *)
Fixpoint run_frames (username : string) (frames : list (list (env * event) * Q))
  (s : session) : M session :=
  match frames with
  | [] => ret s
  | (evs, t) :: rest =>
      s' <- frame username evs t s ;;
      run_frames username rest s'
  end.

(** The timestamps that a state reads are set: the delay while waiting,
    the time of the stimulus while a response is awaited. *)
Definition timestamps_set (s : session) : bool :=
  match game_state s with
  | waiting => match waiting_delay s with Some _ => true | None => false end
  | click => match start_time s with Some _ => true | None => false end
  | _ => true
  end.

(** What the loop keeps true of the session and of the storage. *)
Definition loop_invariant (s : session) (fs : storage) : Prop :=
  timestamps_set s = true /\ storage_ok fs = true /\ all_times (scoreboard fs) = true.

Definition is_quit (e : env * event) : bool :=
  match snd e with
  | QUIT => true
  | _ => false
  end.

(** No event of the frame, or of the frames, closes the window. *)
Definition no_quit (evs : list (env * event)) : bool :=
  forallb (fun e => negb (is_quit e)) evs.

Definition no_quit_frames (frames : list (list (env * event) * Q)) : bool :=
  forallb (fun f => no_quit (fst f)) frames.

(** The document is an object whose ["players"] value is a mapping. *)
Definition has_players_mapping (db : value) : bool :=
  match db with
  | VDict d =>
      match dict_get "players" d with
      | Some (VDict _) => true
      | _ => false
      end
  | _ => false
  end.

(** The message that the response click leaves for a reaction time [r],
    given how [update_score] ended. *)
Definition message_for (r : Q) (o : outcome bool) : message :=
  match o with
  | Ok true => NewBest r
  | Ok false => NotImproved r
  | Raise e => UpdateError e
  end.

(** The scoreboard [{zoe: null, yan: 0.5}], as a hand-edited file may
    hold it. *)
Definition null_score_storage : storage :=
  mkStorage
    (Some (Parsed (VDict [("players",
                           VDict [("zoe", VNone);
                                  ("yan", VFloat (FFin (5 # 10)))])])))
    true true 0.

(** A file whose bytes are not text in its encoding. *)
Definition undecodable_storage : storage := mkStorage (Some Undecodable) true true 0.

(** [e] is one of the three errors that [load_scores] lets through, and
    [c] is the content that raises it. *)
Definition escapes_load (e : exn) (c : option content) : Prop :=
  (e = TypeError /\ exists v, c = Some (Parsed v) /\ is_dict v = false) \/
  (e = UnicodeDecodeError /\ c = Some Undecodable) \/
  (e = RecursionError /\ c = Some TooDeeplyNested).

(** A file that exists but cannot be opened for reading. *)
Definition unreadable_storage : storage :=
  mkStorage
    (Some (Parsed (VDict [("players", VDict [("bob", VFloat (FFin (3 # 10)))])])))
    false true 0.

(** A session that awaits the response to a stimulus shown at time 104. *)
Definition click_session : session :=
  mkSession click (Some 104) None (Some 4) (Some 100) NoMessage.

(** Two entries are tied: neither score is less than the other. *)
Definition tied (a b : entry) : bool :=
  match as_number (snd a), as_number (snd b) with
  | Some x, Some y => negb (float_ltb x y) && negb (float_ltb y x)
  | _, _ => false
  end.

(** The stored value is a time or [null]. *)
Definition time_or_null (e : entry) : Prop := timed e \/ snd e = VNone.

Definition is_null (e : entry) : bool :=
  match snd e with
  | VNone => true
  | _ => false
  end.

(** The scoreboard [{ann: 0.300, bea: unset, cid: 0.300, dov: 9999.0}]:
    two pairs of players with equal scores in the ranking. *)
Definition ties_storage : storage :=
  mkStorage
    (Some (Parsed (VDict [("players",
                           VDict [("ann", VFloat (FFin (3 # 10)));
                                  ("bea", VFloat FPosInf);
                                  ("cid", VFloat (FFin (3 # 10)));
                                  ("dov", VFloat (FFin 9999))])])))
    true true 0.

(** The frames of one round and a look at the scores: the click that starts
    the countdown, a premature click, the frame in which the delay of 4 s
    has passed, the response, the click that leaves the result, and a click
    on the scores button. *)
Definition round_frames : list (list (env * event) * Q) :=
  [([(mkEnv false 4 100, MOUSEBUTTONDOWN 1)], 100);
   ([(mkEnv false 4 102, MOUSEBUTTONDOWN 1)], 102);
   ([], 104);
   ([(mkEnv false 4 (104253 # 1000), MOUSEBUTTONDOWN 1)], 105);
   ([(mkEnv true 4 106, MOUSEBUTTONDOWN 1)], 106);
   ([(mkEnv true 4 107, MOUSEBUTTONDOWN 1)], 107)].

(* ------------------------------------------------------------------ *)
(** ** Comparisons: lemmas *)

Lemma Qltb_spec (x y : Q) : Qltb x y = true <-> x < y.
Proof.
  unfold Qltb. rewrite negb_true_iff. split; intro H.
  - apply Qnot_le_lt. intro Hle. apply Qle_bool_iff in Hle. congruence.
  - destruct (Qle_bool y x) eqn:E; [|reflexivity].
    apply Qle_bool_iff in E. exfalso. exact (Qlt_not_le _ _ H E).
Qed.

Lemma Qltb_false (x y : Q) : Qltb x y = false <-> y <= x.
Proof.
  unfold Qltb. rewrite negb_false_iff. apply Qle_bool_iff.
Qed.

Lemma float_ltb_spec (a b : pyfloat) : float_ltb a b = true <-> float_lt a b.
Proof.
  destruct a, b; simpl; try apply Qltb_spec;
    (split; intro H; try discriminate H; try contradiction; trivial).
Qed.

Lemma float_lt_trans (a b c : pyfloat) : float_lt a b -> float_lt b c -> float_lt a c.
Proof.
  destruct a, b, c; simpl; try contradiction; trivial.
  apply Qlt_trans.
Qed.

Lemma float_lt_asym (a b : pyfloat) : float_lt a b -> ~ float_lt b a.
Proof.
  destruct a, b; simpl; try contradiction; auto.
  intros H1 H2. exact (Qlt_irrefl _ (Qlt_trans _ _ _ H1 H2)).
Qed.

Lemma float_lt_value_spec (t : pyfloat) (v : value) :
  float_lt_value t v = Ok true <-> improves t v.
Proof.
  unfold float_lt_value, improves. destruct (as_number v).
  - rewrite <- float_ltb_spec. split; [intro H; injection H; trivial | intros ->; reflexivity].
  - split; [discriminate | contradiction].
Qed.

(* ------------------------------------------------------------------ *)
(** ** Dictionaries: lemmas *)

Lemma dict_get_set_same (k : string) (v : value) (d : dict) :
  dict_get k (dict_set k v d) = Some v.
Proof.
  induction d as [|[k' v'] d IH]; simpl.
  - now rewrite String.eqb_refl.
  - destruct (String.eqb k k') eqn:E; simpl; rewrite E; auto.
Qed.

Lemma dict_get_set_other (k k' : string) (v : value) (d : dict) :
  k <> k' -> dict_get k' (dict_set k v d) = dict_get k' d.
Proof.
  intro Hne. induction d as [|[k0 v0] d IH]; simpl.
  - destruct (String.eqb k' k) eqn:E; [|reflexivity].
    apply String.eqb_eq in E. congruence.
  - destruct (String.eqb k k0) eqn:E; simpl.
    + apply String.eqb_eq in E. subst k0.
      destruct (String.eqb k' k) eqn:E'; [|reflexivity].
      apply String.eqb_eq in E'. congruence.
    + now rewrite IH.
Qed.

(* ------------------------------------------------------------------ *)
(** ** How the store functions run *)

Ltac run := unfold bind, lift, ret, raise, try_except; simpl.

Lemma save_scores_run (data : value) (fs : storage) :
  save_scores data fs = (Ok tt, if writable fs then written data fs else fs).
Proof.
  unfold save_scores, try_except, dump_to_file, written.
  destruct (writable fs); reflexivity.
Qed.

Lemma read_scores_valid (fs : storage) (d p : dict) :
  readable fs = true ->
  file fs = Some (Parsed (VDict d)) ->
  dict_get "players" d = Some (VDict p) ->
  read_scores fs = (Ok (VDict d), fs).
Proof.
  intros Hr Hf Hp. unfold read_scores, try_except, bind, load_from_file, lift, ret.
  rewrite Hf, Hr. simpl. unfold dict_mem. rewrite Hp. reflexivity.
Qed.

Lemma read_scores_invalid_object (fs : storage) (d : dict) :
  readable fs = true ->
  file fs = Some (Parsed (VDict d)) ->
  (forall p, dict_get "players" d <> Some (VDict p)) ->
  read_scores fs = (Ok empty_scoreboard, fs).
Proof.
  intros Hr Hf Hp. unfold read_scores, try_except, bind, load_from_file, lift, ret.
  rewrite Hf, Hr. simpl. unfold dict_mem.
  destruct (dict_get "players" d) as [v|] eqn:E; simpl; [|reflexivity].
  destruct v; simpl; try reflexivity.
  exfalso. exact (Hp _ eq_refl).
Qed.


Lemma load_scores_exists (fs : storage) (c : content) :
  file fs = Some c -> load_scores fs = read_scores fs.
Proof.
  intro Hf. unfold load_scores, bind, path_exists. rewrite Hf. reflexivity.
Qed.

Lemma load_scores_missing (fs : storage) :
  file fs = None -> readable fs = true -> writable fs = true ->
  load_scores fs = (Ok empty_scoreboard, written empty_scoreboard fs).
Proof.
  destruct fs as [f r w n]. simpl. intros -> -> ->. reflexivity.
Qed.

Lemma scoreboard_written (fs : storage) (d p : dict) :
  scoreboard (written (VDict (dict_set "players" (VDict p) d)) fs) = p.
Proof.
  unfold scoreboard, written; simpl. now rewrite dict_get_set_same.
Qed.

Lemma storage_ok_written (fs : storage) (d : dict) :
  storage_ok fs = true -> storage_ok (written (VDict d) fs) = true.
Proof.
  unfold storage_ok, written; simpl. intro H.
  apply andb_true_iff in H as [H _]. now rewrite H.
Qed.

Lemma storage_ok_parts (fs : storage) :
  storage_ok fs = true ->
  readable fs = true /\ writable fs = true /\ object_or_fresh (file fs) = true.
Proof.
  unfold storage_ok. intro H.
  apply andb_true_iff in H as [H H3]. apply andb_true_iff in H as [H1 H2]. auto.
Qed.

(** On a working storage [load_scores] returns a document whose
    ["players"] mapping is the stored scoreboard; it leaves a file that
    holds an object as it is, and replaces any other by the empty
    scoreboard. *)
Lemma load_scores_ok (fs : storage) :
  storage_ok fs = true ->
  exists d fs1,
    load_scores fs = (Ok (VDict d), fs1) /\
    dict_get "players" d = Some (VDict (scoreboard fs)) /\
    scoreboard fs1 = scoreboard fs /\
    storage_ok fs1 = true /\
    (forall d0, file fs = Some (Parsed (VDict d0)) -> fs1 = fs) /\
    (fs1 = fs \/ file fs1 = Some (Parsed (VDict d))).
Proof.
  intro Hok. destruct (storage_ok_parts _ Hok) as (Hr & Hw & Ho).
  destruct fs as [f r w n]; simpl in *; subst r w.
  assert (Hfresh : forall c, object_or_fresh c = true -> players_of c = [] ->
            (forall d0, c <> Some (Parsed (VDict d0))) ->
            load_scores (mkStorage c true true n)
            = (Ok empty_scoreboard, written empty_scoreboard (mkStorage c true true n)) ->
            exists d fs1,
              load_scores (mkStorage c true true n) = (Ok (VDict d), fs1) /\
              dict_get "players" d = Some (VDict (scoreboard (mkStorage c true true n))) /\
              scoreboard fs1 = scoreboard (mkStorage c true true n) /\
              storage_ok fs1 = true /\
              (forall d0, c = Some (Parsed (VDict d0)) -> fs1 = mkStorage c true true n) /\
              (fs1 = mkStorage c true true n \/ file fs1 = Some (Parsed (VDict d)))).
  { intros c _ Hc Hno Hl. eexists; eexists. split; [exact Hl|].
    unfold scoreboard; simpl. rewrite Hc.
    repeat split; auto. intros d0 H0. exfalso. exact (Hno _ H0). }
  destruct f as [[| | |v]|]; try discriminate Ho.
  - apply Hfresh; auto; discriminate.
  - destruct v; try discriminate Ho.
    destruct (dict_get "players" d) as [pv|] eqn:Hp.
    + destruct pv as [| | | | | |p].
      7: { exists d, (mkStorage (Some (Parsed (VDict d))) true true n).
           rewrite (load_scores_exists _ (Parsed (VDict d))) by reflexivity.
           rewrite (read_scores_valid _ d p) by auto.
           unfold scoreboard; simpl; rewrite Hp. repeat split; auto. }
      all: exists [("players", VDict [])], (mkStorage (Some (Parsed (VDict d))) true true n);
        rewrite (load_scores_exists _ (Parsed (VDict d))) by reflexivity;
        rewrite (read_scores_invalid_object _ d)
          by (simpl; auto; intros p0; rewrite Hp; discriminate);
        unfold scoreboard; simpl; rewrite Hp; repeat split; auto.
    + exists [("players", VDict [])], (mkStorage (Some (Parsed (VDict d))) true true n).
      rewrite (load_scores_exists _ (Parsed (VDict d))) by reflexivity.
      rewrite (read_scores_invalid_object _ d)
        by (simpl; auto; intros p0; rewrite Hp; discriminate).
      unfold scoreboard; simpl; rewrite Hp. repeat split; auto.
  - apply Hfresh; auto; discriminate.
Qed.

Lemma update_score_run (u : string) (t : pyfloat) (fs fs1 : storage) (d p : dict) :
  load_scores fs = (Ok (VDict d), fs1) ->
  dict_get "players" d = Some (VDict p) ->
  update_score u t fs
  = match float_lt_value t (dict_get_default u unset p) with
    | Ok true => (Ok true, storage_after (save_scores (with_record d p u (VFloat t))) fs1)
    | _ => (Ok false, fs1)
    end.
Proof.
  intros Hl Hp. unfold update_score, bind at 1. rewrite Hl.
  run. rewrite Hp. simpl.
  destruct (float_lt_value t (dict_get_default u unset p)) as [[|]|e] eqn:E.
  - unfold storage_after, with_record. rewrite save_scores_run. reflexivity.
  - reflexivity.
  - unfold float_lt_value in E. destruct (as_number _); [discriminate|].
    injection E as <-. reflexivity.
Qed.

Lemma register_or_get_user_run (u : string) (fs fs1 : storage) (d p : dict) :
  load_scores fs = (Ok (VDict d), fs1) ->
  dict_get "players" d = Some (VDict p) ->
  register_or_get_user u fs
  = match dict_get u p with
    | Some v => (Ok v, fs1)
    | None => (Ok unset, storage_after (save_scores (with_record d p u unset)) fs1)
    end.
Proof.
  intros Hl Hp. unfold register_or_get_user, bind at 1. rewrite Hl.
  run. rewrite Hp. simpl. unfold dict_mem.
  destruct (dict_get u p) as [v|] eqn:E; simpl.
  - reflexivity.
  - unfold storage_after, with_record.
    rewrite save_scores_run. simpl.
    rewrite !dict_get_set_same. simpl. rewrite dict_get_set_same. reflexivity.
Qed.

Lemma record_in_object (fs : storage) (u : string) (v : value) :
  record_of fs u = Some v ->
  exists d, file fs = Some (Parsed (VDict d)) /\
            dict_get "players" d = Some (VDict (scoreboard fs)).
Proof.
  unfold record_of, scoreboard, players_of.
  destruct (file fs) as [[| | |doc]|]; try discriminate.
  destruct doc; try discriminate.
  destruct (dict_get "players" d) as [pv|] eqn:Hp; try discriminate.
  destruct pv; try discriminate.
  intros _. exists d. auto.
Qed.

(** A file that holds a scoreboard with at least one record is loaded as
    it is, without a write, whether or not the storage can be written. *)
Lemma load_scores_with_record (fs : storage) (u : string) (v : value) :
  readable fs = true ->
  record_of fs u = Some v ->
  exists d, load_scores fs = (Ok (VDict d), fs) /\
            file fs = Some (Parsed (VDict d)) /\
            dict_get "players" d = Some (VDict (scoreboard fs)).
Proof.
  intros Hr Hrec. destruct (record_in_object _ _ _ Hrec) as (d & Hf & Hp).
  exists d. rewrite (load_scores_exists _ _ Hf), (read_scores_valid _ _ _ Hr Hf Hp). auto.
Qed.

Lemma register_present (fs : storage) (u : string) (v : value) :
  readable fs = true ->
  record_of fs u = Some v ->
  register_or_get_user u fs = (Ok v, fs).
Proof.
  intros Hr Hrec. destruct (load_scores_with_record _ _ _ Hr Hrec) as (d & Hl & _ & Hp).
  rewrite (register_or_get_user_run u _ _ _ _ Hl Hp).
  unfold record_of in Hrec. now rewrite Hrec.
Qed.

Lemma record_of_written (fs : storage) (d p : dict) (u : string) (v : value) :
  record_of (written (with_record d p u v) fs) u = Some v.
Proof.
  unfold record_of, with_record. rewrite scoreboard_written. apply dict_get_set_same.
Qed.

Lemma record_of_written_other (fs : storage) (d p : dict) (u w : string) (v : value) :
  u <> w ->
  record_of (written (with_record d p u v) fs) w = dict_get w p.
Proof.
  intro Hne. unfold record_of, with_record. rewrite scoreboard_written.
  now apply dict_get_set_other.
Qed.

(** What [update_score] does on a working storage. *)
Lemma update_score_ok (u : string) (t : pyfloat) (fs : storage) :
  storage_ok fs = true ->
  exists (b : bool) (fs' : storage),
    update_score u t fs = (Ok b, fs') /\
    storage_ok fs' = true /\
    (b = true <-> improves t (best fs u)) /\
    (b = true -> scoreboard fs' = dict_set u (VFloat t) (scoreboard fs)) /\
    (b = false -> scoreboard fs' = scoreboard fs) /\
    (b = false -> forall d, file fs = Some (Parsed (VDict d)) -> fs' = fs).
Proof.
  intro Hok.
  destruct (load_scores_ok _ Hok) as (d & fs1 & Hl & Hp & Hsb & Hok1 & Hsame & _).
  rewrite (update_score_run u t _ _ _ _ Hl Hp). unfold best.
  destruct (float_lt_value t (dict_get_default u unset (scoreboard fs)))
    as [[|]|e] eqn:E.
  - (* the candidate is better: the new record is written *)
    exists true. eexists. split; [reflexivity|].
    destruct (storage_ok_parts _ Hok1) as (_ & Hw & _).
    unfold storage_after. rewrite save_scores_run, Hw. simpl.
    split; [now apply storage_ok_written|].
    repeat split; auto; try discriminate.
    + intros _. now apply float_lt_value_spec.
    + intros _. unfold with_record. apply scoreboard_written.
  - exists false, fs1. repeat split; auto; try discriminate.
    intro H. apply float_lt_value_spec in H. congruence.
  - exists false, fs1. repeat split; auto; try discriminate.
    intro H. apply float_lt_value_spec in H. congruence.
Qed.

(** What [register_or_get_user] does on a working storage. *)
Lemma register_or_get_user_ok (u : string) (fs : storage) :
  storage_ok fs = true ->
  exists (fs' : storage),
    register_or_get_user u fs = (Ok (best fs u), fs') /\
    storage_ok fs' = true /\
    scoreboard fs'
    = match record_of fs u with
      | Some _ => scoreboard fs
      | None => dict_set u unset (scoreboard fs)
      end.
Proof.
  intro Hok.
  destruct (load_scores_ok _ Hok) as (d & fs1 & Hl & Hp & Hsb & Hok1 & _ & _).
  rewrite (register_or_get_user_run u _ _ _ _ Hl Hp).
  unfold best, dict_get_default, record_of.
  destruct (dict_get u (scoreboard fs)) as [v|] eqn:E.
  - exists fs1. auto.
  - destruct (storage_ok_parts _ Hok1) as (_ & Hw & _).
    unfold storage_after. rewrite save_scores_run, Hw. simpl.
    eexists. split; [reflexivity|]. split; [now apply storage_ok_written|].
    unfold with_record. apply scoreboard_written.
Qed.

Lemma get_top5_storage (fs : storage) :
  storage_after get_top5 fs = storage_after load_scores fs.
Proof.
  unfold storage_after, get_top5, bind at 1.
  destruct (load_scores fs) as [[db|e] fs1]; [|reflexivity].
  unfold bind, lift, ret, raise. simpl.
  destruct (py_get_default db "players" (VDict [])) as [players|e]; [|reflexivity].
  destruct players; try reflexivity.
  destruct (normalized d) as [norm|e]; [|reflexivity].
  destruct (py_sorted norm); reflexivity.
Qed.

(* ------------------------------------------------------------------ *)
(** ** The claims about [update_score] and [register_or_get_user] *)

(** C1.  On a working storage, [update_score u t] returns [True] exactly
    when [t] is strictly less than the best time stored for [u] before the
    call, a player without a record counting as unset (infinity).  When it
    returns [True] the record of [u] is [t] afterwards; when it returns
    [False] the stored scoreboard is the same as before, and a file that
    held a JSON object is not written at all. *)
Theorem update_score_true_iff_improves (u : string) (t : pyfloat) (fs : storage) :
  storage_ok fs = true ->
  exists (b : bool) (fs' : storage),
    update_score u t fs = (Ok b, fs') /\
    (b = true <-> improves t (best fs u)) /\
    (b = true -> record_of fs' u = Some (VFloat t)) /\
    (b = false -> scoreboard fs' = scoreboard fs) /\
    (b = false -> forall d, file fs = Some (Parsed (VDict d)) -> fs' = fs).
Proof.
  intro Hok.
  destruct (update_score_ok u t fs Hok) as (b & fs' & Hrun & _ & Hiff & Hset & Hkeep & Hfile).
  exists b, fs'. repeat split; auto; try apply Hiff.
  intro Hb. unfold record_of. rewrite (Hset Hb). apply dict_get_set_same.
Qed.

Lemma update_score_true_iff_improves_witness :
  storage_ok alice_new_storage = true /\
  exists (b : bool) (fs' : storage),
    update_score "alice" (FFin (253 # 1000)) alice_new_storage = (Ok b, fs') /\
    (b = true <-> improves (FFin (253 # 1000)) (best alice_new_storage "alice")) /\
    (b = true -> record_of fs' "alice" = Some (VFloat (FFin (253 # 1000)))) /\
    (b = false -> scoreboard fs' = scoreboard alice_new_storage) /\
    (b = false -> forall d, file alice_new_storage = Some (Parsed (VDict d)) ->
                  fs' = alice_new_storage).
Proof.
  split; [reflexivity|].
  apply (update_score_true_iff_improves "alice" (FFin (253 # 1000)) alice_new_storage).
  reflexivity.
Defined.

(** C10.  A call of [update_score u t] or of [register_or_get_user u]
    leaves the record of every other player [v] of the scoreboard as it
    was. *)
Theorem other_records_unchanged (u v : string) (t : pyfloat) (x : value) (fs : storage) :
  readable fs = true ->
  v <> u ->
  record_of fs v = Some x ->
  (exists (b : bool) (fs' : storage),
      update_score u t fs = (Ok b, fs') /\ record_of fs' v = Some x) /\
  (exists (r : value) (fs' : storage),
      register_or_get_user u fs = (Ok r, fs') /\ record_of fs' v = Some x).
Proof.
  intros Hr Hne Hrec.
  destruct (load_scores_with_record _ _ _ Hr Hrec) as (d & Hl & _ & Hp).
  assert (Hsave : forall y,
             record_of (storage_after (save_scores (with_record d (scoreboard fs) u y)) fs) v
             = Some x).
  { intro y. unfold storage_after. rewrite save_scores_run.
    destruct (writable fs); simpl; [|exact Hrec].
    rewrite record_of_written_other by congruence. exact Hrec. }
  split.
  - rewrite (update_score_run u t _ _ _ _ Hl Hp).
    destruct (float_lt_value t (dict_get_default u unset (scoreboard fs))) as [[|]|e];
      eexists; eexists; (split; [reflexivity|]); auto.
  - rewrite (register_or_get_user_run u _ _ _ _ Hl Hp).
    destruct (dict_get u (scoreboard fs));
      eexists; eexists; (split; [reflexivity|]); auto.
Qed.

Lemma other_records_unchanged_witness :
  (exists (b : bool) (fs' : storage),
      update_score "bob" (FFin (1 # 10)) bob_carol_storage = (Ok b, fs') /\
      record_of fs' "carol" = Some (VFloat (FFin (21 # 100)))) /\
  (exists (r : value) (fs' : storage),
      register_or_get_user "bob" bob_carol_storage = (Ok r, fs') /\
      record_of fs' "carol" = Some (VFloat (FFin (21 # 100)))).
Proof.
  apply (other_records_unchanged "bob" "carol" (FFin (1 # 10))
           (VFloat (FFin (21 # 100))) bob_carol_storage).
  - reflexivity.
  - discriminate.
  - reflexivity.
Defined.

(** C6.  On a working storage [register_or_get_user u] is idempotent: a
    second call right after the first returns the same best time and
    leaves the storage, the count of completed writes included, exactly as
    the first call left it. *)
Theorem register_or_get_user_idempotent (u : string) (fs : storage) :
  storage_ok fs = true ->
  exists (v : value) (fs1 : storage),
    register_or_get_user u fs = (Ok v, fs1) /\
    register_or_get_user u fs1 = (Ok v, fs1) /\
    writes (storage_after (register_or_get_user u) fs1) = writes fs1.
Proof.
  intro Hok.
  destruct (load_scores_ok _ Hok) as (d & fs1 & Hl & Hp & Hsb & Hok1 & _ & _).
  destruct (storage_ok_parts _ Hok1) as (Hr1 & Hw1 & _).
  rewrite (register_or_get_user_run u _ _ _ _ Hl Hp).
  destruct (dict_get u (scoreboard fs)) as [v|] eqn:E.
  - exists v, fs1. split; [reflexivity|].
    assert (H : register_or_get_user u fs1 = (Ok v, fs1)).
    { apply register_present; auto. unfold record_of. now rewrite Hsb. }
    unfold storage_after. now rewrite H.
  - unfold storage_after. rewrite save_scores_run, Hw1. simpl.
    eexists; eexists. split; [reflexivity|].
    assert (H : register_or_get_user u (written (with_record d (scoreboard fs) u unset) fs1)
                = (Ok unset, written (with_record d (scoreboard fs) u unset) fs1)).
    { apply register_present; auto. apply record_of_written. }
    now rewrite H.
Qed.

Lemma register_or_get_user_idempotent_witness :
  storage_ok alice_new_storage = true /\
  exists (v : value) (fs1 : storage),
    register_or_get_user "alice" alice_new_storage = (Ok v, fs1) /\
    register_or_get_user "alice" fs1 = (Ok v, fs1) /\
    writes (storage_after (register_or_get_user "alice") fs1) = writes fs1.
Proof.
  split; [reflexivity|].
  apply (register_or_get_user_idempotent "alice" alice_new_storage). reflexivity.
Defined.

(* ------------------------------------------------------------------ *)
(** ** The best time over sequences of operations *)

Lemma dict_get_default_set_same (u : string) (v dflt : value) (p : dict) :
  dict_get_default u dflt (dict_set u v p) = v.
Proof.
  unfold dict_get_default. now rewrite dict_get_set_same.
Qed.

Lemma dict_get_default_set_other (u w : string) (v dflt : value) (p : dict) :
  w <> u -> dict_get_default u dflt (dict_set w v p) = dict_get_default u dflt p.
Proof.
  intro Hne. unfold dict_get_default. now rewrite dict_get_set_other.
Qed.

Lemma not_increased_refl (v : value) : not_increased v v.
Proof. now left. Qed.

Lemma improves_trans (t t' : pyfloat) (v : value) :
  float_lt t' t -> improves t v -> improves t' v.
Proof.
  unfold improves. destruct (as_number v); [|contradiction].
  apply float_lt_trans.
Qed.

Lemma not_increased_trans (a b c : value) :
  not_increased a b -> not_increased b c -> not_increased a c.
Proof.
  intros [->|(t & -> & Ht)] [->|(t' & -> & Ht')].
  - now left.
  - right. now exists t'.
  - right. now exists t.
  - right. exists t'. split; [reflexivity|].
    exact (improves_trans t t' a Ht' Ht).
Qed.

Lemma best_eq_scoreboard (fs fs' : storage) (u : string) :
  scoreboard fs' = scoreboard fs -> best fs' u = best fs u.
Proof.
  unfold best. now intros ->.
Qed.

(** One operation keeps the storage working and does not increase the best
    time of any player. *)
Lemma run_op_ok (o : store_op) (u : string) (fs : storage) :
  storage_ok fs = true ->
  storage_ok (run_op o fs) = true /\ not_increased (best fs u) (best (run_op o fs) u).
Proof.
  intro Hok.
  assert (Hload : storage_ok (storage_after load_scores fs) = true /\
                  not_increased (best fs u) (best (storage_after load_scores fs) u)).
  { destruct (load_scores_ok _ Hok) as (d & fs1 & Hl & _ & Hsb & Hok1 & _ & _).
    unfold storage_after. rewrite Hl. simpl. split; [exact Hok1|].
    rewrite (best_eq_scoreboard _ _ u Hsb). apply not_increased_refl. }
  destruct o as [|w|w t|]; simpl.
  - exact Hload.
  - destruct (register_or_get_user_ok w fs Hok) as (fs' & Hrun & Hok' & Hsb).
    unfold storage_after. rewrite Hrun. simpl. split; [exact Hok'|].
    unfold best. rewrite Hsb. unfold record_of.
    destruct (dict_get w (scoreboard fs)) as [x|] eqn:E; [apply not_increased_refl|].
    destruct (string_dec w u) as [->|Hne].
    + rewrite dict_get_default_set_same. unfold dict_get_default. rewrite E.
      apply not_increased_refl.
    + rewrite dict_get_default_set_other by exact Hne. apply not_increased_refl.
  - destruct (update_score_ok w t fs Hok) as (b & fs' & Hrun & Hok' & Hiff & Hset & Hkeep & _).
    unfold storage_after. rewrite Hrun. simpl. split; [exact Hok'|].
    destruct b.
    + unfold best at 2. rewrite (Hset eq_refl).
      destruct (string_dec w u) as [->|Hne].
      * rewrite dict_get_default_set_same. right. exists t. split; [reflexivity|].
        now apply Hiff.
      * rewrite dict_get_default_set_other by exact Hne. apply not_increased_refl.
    + rewrite (best_eq_scoreboard _ _ u (Hkeep eq_refl)). apply not_increased_refl.
  - rewrite get_top5_storage. exact Hload.
Qed.

Lemma run_ops_ok (ops : list store_op) (u : string) (fs : storage) :
  storage_ok fs = true ->
  storage_ok (run_ops ops fs) = true /\ not_increased (best fs u) (best (run_ops ops fs) u).
Proof.
  revert fs. induction ops as [|o ops IH]; intros fs Hok; simpl.
  - split; [exact Hok | apply not_increased_refl].
  - destruct (run_op_ok o u fs Hok) as (Hok1 & H1).
    destruct (IH _ Hok1) as (Hok2 & H2).
    split; [exact Hok2|]. exact (not_increased_trans _ _ _ H1 H2).
Qed.

Lemma storage_after_then {A B} (m1 : M A) (m2 : M B) (fs fs1 : storage) (a : A) :
  m1 fs = (Ok a, fs1) ->
  storage_after (m1 ;;; m2) fs = storage_after m2 fs1.
Proof.
  intro H. unfold storage_after, bind. now rewrite H.
Qed.

(** An update with a time that improves on the stored one leaves that time
    as the record. *)
Lemma update_score_improving (u : string) (t : pyfloat) (fs : storage) :
  storage_ok fs = true ->
  improves t (best fs u) ->
  exists fs', update_score u t fs = (Ok true, fs') /\
              storage_ok fs' = true /\
              scoreboard fs' = dict_set u (VFloat t) (scoreboard fs).
Proof.
  intros Hok Himp.
  destruct (update_score_ok u t fs Hok) as (b & fs' & Hrun & Hok' & Hiff & Hset & _).
  assert (b = true) as -> by now apply Hiff.
  exists fs'. auto.
Qed.

(** An update with a time that does not improve leaves the scoreboard. *)
Lemma update_score_not_improving (u : string) (t : pyfloat) (fs : storage) :
  storage_ok fs = true ->
  ~ improves t (best fs u) ->
  exists fs', update_score u t fs = (Ok false, fs') /\
              storage_ok fs' = true /\
              scoreboard fs' = scoreboard fs.
Proof.
  intros Hok Himp.
  destruct (update_score_ok u t fs Hok) as (b & fs' & Hrun & Hok' & Hiff & _ & Hkeep & _).
  destruct b.
  - exfalso. apply Himp. now apply Hiff.
  - exists fs'. auto.
Qed.

(** C5 (amended).  On a working storage no sequence of store operations
    increases the stored best time of [u]; and for candidate times
    [t1 < t2], when the best time stored for [u] before the calls is
    absent, unset or greater than [t1], both [update(u, t2)] followed by
    [update(u, t1)] and [update(u, t1)] followed by [update(u, t2)] end
    with the record [t1]. *)
Theorem best_time_never_increases
  (u : string) (fs : storage) (ops : list store_op) (t1 t2 : pyfloat) :
  storage_ok fs = true ->
  not_increased (best fs u) (best (run_ops ops fs) u) /\
  (float_lt t1 t2 ->
   improves t1 (best fs u) ->
   record_of (storage_after (update_score u t2 ;;; update_score u t1) fs) u
   = Some (VFloat t1) /\
   record_of (storage_after (update_score u t1 ;;; update_score u t2) fs) u
   = Some (VFloat t1)).
Proof.
  intro Hok. split; [apply (run_ops_ok ops u fs Hok)|].
  intros Hlt Himp. split.
  - (* the worse time first *)
    destruct (update_score_ok u t2 fs Hok) as (b & fs1 & Hrun & Hok1 & _ & Hset & Hkeep & _).
    rewrite (storage_after_then _ _ _ _ _ Hrun).
    assert (Himp1 : improves t1 (best fs1 u)).
    { destruct b.
      - unfold best. rewrite (Hset eq_refl), dict_get_default_set_same. exact Hlt.
      - rewrite (best_eq_scoreboard _ _ u (Hkeep eq_refl)). exact Himp. }
    destruct (update_score_improving u t1 fs1 Hok1 Himp1) as (fs2 & Hrun2 & _ & Hsb2).
    unfold storage_after. rewrite Hrun2. simpl.
    unfold record_of. rewrite Hsb2. apply dict_get_set_same.
  - (* the better time first *)
    destruct (update_score_improving u t1 fs Hok Himp) as (fs1 & Hrun & Hok1 & Hsb1).
    rewrite (storage_after_then _ _ _ _ _ Hrun).
    assert (Hno : ~ improves t2 (best fs1 u)).
    { unfold best. rewrite Hsb1, dict_get_default_set_same.
      apply float_lt_asym. exact Hlt. }
    destruct (update_score_not_improving u t2 fs1 Hok1 Hno) as (fs2 & Hrun2 & _ & Hsb2).
    unfold storage_after. rewrite Hrun2. simpl.
    unfold record_of. rewrite Hsb2, Hsb1. apply dict_get_set_same.
Qed.

Lemma best_time_never_increases_witness :
  storage_ok alice_new_storage = true /\
  float_lt (FFin (253 # 1000)) (FFin (4 # 10)) /\
  improves (FFin (253 # 1000)) (best alice_new_storage "alice") /\
  not_increased
    (best alice_new_storage "alice")
    (best (run_ops [OpRegister "alice"; OpUpdate "alice" (FFin (4 # 10));
                    OpTop5; OpUpdate "alice" (FFin (253 # 1000))]
                   alice_new_storage) "alice") /\
  record_of (storage_after (update_score "alice" (FFin (4 # 10)) ;;;
                            update_score "alice" (FFin (253 # 1000)))
                           alice_new_storage) "alice"
  = Some (VFloat (FFin (253 # 1000))) /\
  record_of (storage_after (update_score "alice" (FFin (253 # 1000)) ;;;
                            update_score "alice" (FFin (4 # 10)))
                           alice_new_storage) "alice"
  = Some (VFloat (FFin (253 # 1000))).
Proof.
  assert (Hok : storage_ok alice_new_storage = true) by reflexivity.
  assert (Hlt : float_lt (FFin (253 # 1000)) (FFin (4 # 10))) by reflexivity.
  assert (Himp : improves (FFin (253 # 1000)) (best alice_new_storage "alice"))
    by exact I.
  destruct (best_time_never_increases "alice" alice_new_storage
              [OpRegister "alice"; OpUpdate "alice" (FFin (4 # 10));
               OpTop5; OpUpdate "alice" (FFin (253 # 1000))]
              (FFin (253 # 1000)) (FFin (4 # 10)) Hok) as [Hseq Htwo].
  destruct (Htwo Hlt Himp) as [H1 H2].
  exact (conj Hok (conj Hlt (conj Himp (conj Hseq (conj H1 H2))))).
Defined.

(** C5 as stated fails when [u] already has a better time than [t1]: with
    the scoreboard [{dana: 0.100}], [update(dana, 0.300)] followed by
    [update(dana, 0.200)] ends with the record 0.100, which is not
    [t1 = 0.200]. *)
Lemma update_twice_keeps_better_prior_record :
  storage_ok dana_storage = true /\
  float_lt (FFin (2 # 10)) (FFin (3 # 10)) /\
  record_of (storage_after (update_score "dana" (FFin (3 # 10)) ;;;
                            update_score "dana" (FFin (2 # 10)))
                           dana_storage) "dana"
  = Some (VFloat (FFin (1 # 10))) /\
  record_of (storage_after (update_score "dana" (FFin (3 # 10)) ;;;
                            update_score "dana" (FFin (2 # 10)))
                           dana_storage) "dana"
  <> Some (VFloat (FFin (2 # 10))) /\
  ~ (1 # 10 == 2 # 10).
Proof.
  repeat split; try reflexivity; discriminate.
Qed.

(* ------------------------------------------------------------------ *)
(** ** Invalid documents and failing writes *)




(** A document that is a number is outside of what [load_scores] provides
    for: the membership test raises a [TypeError], which the [except]
    clause does not name. *)
Lemma load_scores_raises_on_number (z : Z) (n : nat) :
  load_scores (mkStorage (Some (Parsed (VInt z))) true true n)
  = (Raise TypeError, mkStorage (Some (Parsed (VInt z))) true true n).
Proof. reflexivity. Qed.

(** When the write fails, [save_scores] swallows the error and
    [update_score] still returns [True]. *)
Lemma update_score_write_refused (u : string) (t : pyfloat) (fs : storage) (d p : dict) :
  readable fs = true ->
  writable fs = false ->
  file fs = Some (Parsed (VDict d)) ->
  dict_get "players" d = Some (VDict p) ->
  improves t (dict_get_default u unset p) ->
  update_score u t fs = (Ok true, fs).
Proof.
  intros Hr Hw Hf Hp Himp.
  assert (Hl : load_scores fs = (Ok (VDict d), fs)).
  { rewrite (load_scores_exists _ _ Hf). now apply read_scores_valid with (p := p). }
  rewrite (update_score_run u t _ _ _ _ Hl Hp).
  apply float_lt_value_spec in Himp. rewrite Himp.
  unfold storage_after. rewrite save_scores_run, Hw. reflexivity.
Qed.

(** A stored value that is not a number makes the comparison raise; the
    error is caught and the answer is [False]. *)
Lemma update_score_comparison_failure (u : string) (t : pyfloat) (fs : storage) :
  storage_ok fs = true ->
  as_number (best fs u) = None ->
  exists fs', update_score u t fs = (Ok false, fs') /\ scoreboard fs' = scoreboard fs.
Proof.
  intros Hok Hnum.
  destruct (update_score_not_improving u t fs Hok) as (fs' & Hrun & _ & Hsb).
  - unfold improves. now rewrite Hnum.
  - exists fs'. auto.
Qed.

(** C3, at the failing input.  The storage holds a valid empty scoreboard
    and refuses writes; [update_score("alice", 0.253)] returns [True]
    although nothing was stored: the file is as before and has no record of
    alice. *)
Theorem update_score_true_though_write_failed :
  update_score "alice" (FFin (253 # 1000)) read_only_storage
  = (Ok true, read_only_storage) /\
  record_of (storage_after (update_score "alice" (FFin (253 # 1000))) read_only_storage)
            "alice" = None /\
  save_scores (VDict [("players", VDict [("alice", VFloat (FFin (253 # 1000)))])])
              read_only_storage
  = (Ok tt, read_only_storage).
Proof.
  repeat split.
Qed.

(* ------------------------------------------------------------------ *)
(** ** Clicks during the countdown *)

(** C7.  A left click that arrives while the session is in the [waiting]
    state changes neither the session nor the storage: the state stays
    [waiting] and no score is written. *)
Theorem click_while_waiting_is_ignored
  (username : string) (ev : env) (s : session) (fs : storage) :
  game_state s = waiting ->
  handle_event username ev (MOUSEBUTTONDOWN 1) s fs = (Ok s, fs).
Proof.
  intro Hs. unfold handle_event. rewrite Hs. reflexivity.
Qed.

Lemma click_while_waiting_is_ignored_witness :
  game_state waiting_session = waiting /\
  handle_event "alice" (mkEnv false 4 101) (MOUSEBUTTONDOWN 1) waiting_session
               bob_carol_storage
  = (Ok waiting_session, bob_carol_storage).
Proof.
  split; [reflexivity|].
  exact (click_while_waiting_is_ignored "alice" (mkEnv false 4 101) waiting_session
           bob_carol_storage eq_refl).
Defined.

(** Any number of clicks in one frame is ignored alike. *)
Lemma clicks_while_waiting_are_ignored
  (username : string) (evs : list (env * event)) (s : session) (fs : storage) :
  game_state s = waiting ->
  forallb is_click evs = true ->
  handle_events username evs s fs = (Ok s, fs).
Proof.
  intro Hs. induction evs as [|[ev e] evs IH]; simpl; intro Hall; [reflexivity|].
  apply andb_true_iff in Hall as [He Hall].
  unfold is_click in He. simpl in He.
  destruct e as [|[|[|b]]|]; try discriminate.
  unfold bind. unfold handle_event at 1. rewrite Hs. simpl. now apply IH.
Qed.

(** A whole frame of clicks before the delay has elapsed leaves the
    session waiting and the storage untouched. *)
Lemma frame_of_clicks_before_delay
  (username : string) (evs : list (env * event)) (t w d : Q)
  (s : session) (fs : storage) :
  game_state s = waiting ->
  waiting_delay s = Some w ->
  delay_start s = Some d ->
  t - d < w ->
  forallb is_click evs = true ->
  frame username evs t s fs = (Ok s, fs).
Proof.
  intros Hs Hw Hd Hlt Hall. unfold frame, bind.
  rewrite (clicks_while_waiting_are_ignored username evs s fs Hs Hall).
  unfold lift, state_logic. rewrite Hs, Hw, Hd.
  assert (Hle : Qle_bool w (t - d) = false).
  { destruct (Qle_bool w (t - d)) eqn:E; [|reflexivity].
    apply Qle_bool_iff in E. exfalso. exact (Qlt_not_le _ _ Hlt E). }
  rewrite Hle. simpl.
  destruct s as [g st et wd ds msg]. simpl in *. subst. reflexivity.
Qed.

(* ------------------------------------------------------------------ *)
(** ** The unset sentinel through save and load *)

(** What was saved is what the next load returns. *)
Lemma load_after_save (d p : dict) (fs : storage) :
  readable fs = true ->
  writable fs = true ->
  dict_get "players" d = Some (VDict p) ->
  load_scores (storage_after (save_scores (VDict d)) fs)
  = (Ok (VDict d), storage_after (save_scores (VDict d)) fs).
Proof.
  intros Hr Hw Hp. unfold storage_after. rewrite save_scores_run, Hw. simpl.
  rewrite (load_scores_exists _ (Parsed (VDict d))) by reflexivity.
  now apply read_scores_valid with (p := p).
Qed.

Lemma save_load_cycle_ok (fs : storage) :
  storage_ok fs = true ->
  storage_ok (storage_after save_load_cycle fs) = true /\
  scoreboard (storage_after save_load_cycle fs) = scoreboard fs.
Proof.
  intro Hok.
  destruct (load_scores_ok _ Hok) as (d & fs1 & Hl & Hp & Hsb & Hok1 & _ & _).
  destruct (storage_ok_parts _ Hok1) as (_ & Hw & _).
  unfold storage_after, save_load_cycle, bind. rewrite Hl, save_scores_run, Hw. simpl.
  split; [now apply storage_ok_written|].
  unfold scoreboard, written. simpl. now rewrite Hp.
Qed.

Lemma cycles_ok (n : nat) (fs : storage) :
  storage_ok fs = true ->
  storage_ok (cycles n fs) = true /\ scoreboard (cycles n fs) = scoreboard fs.
Proof.
  intro Hok. induction n as [|n [IH1 IH2]]; simpl; [auto|].
  destruct (save_load_cycle_ok _ IH1) as [H1 H2].
  split; [exact H1|]. now rewrite H2.
Qed.

(** C8.  After [register_or_get_user u] for a new user [u] on a working
    storage, and after any number of save/load cycles, [load_scores]
    still returns [float("inf")] for [u], the value that [get_top5]
    recognises as unset; and that value is never smaller than a finite
    time, while every finite time is smaller than it. *)
Theorem unset_round_trips (u : string) (fs : storage) (n : nat) :
  storage_ok fs = true ->
  record_of fs u = None ->
  exists fs1 db fs2,
    register_or_get_user u fs = (Ok unset, fs1) /\
    load_scores (cycles n fs1) = (Ok db, fs2) /\
    player_value db u = Ok unset /\
    record_of fs2 u = Some unset /\
    ne_inf unset = false /\
    (forall q : Q,
        float_lt_value (FFin q) unset = Ok true /\
        value_lt unset (VFloat (FFin q)) = Ok false /\
        value_lt (VFloat (FFin q)) unset = Ok true).
Proof.
  intros Hok Hnew.
  destruct (register_or_get_user_ok u fs Hok) as (fs1 & Hrun & Hok1 & Hsb1).
  rewrite Hnew in Hsb1.
  assert (Hb : best fs u = unset).
  { unfold best, dict_get_default. unfold record_of in Hnew. now rewrite Hnew. }
  rewrite Hb in Hrun.
  destruct (cycles_ok n fs1 Hok1) as (Hokn & Hsbn).
  destruct (load_scores_ok _ Hokn) as (d & fs2 & Hl & Hp & Hsb2 & _).
  exists fs1, (VDict d), fs2.
  repeat split; auto.
  - unfold player_value. simpl. rewrite Hp. simpl.
    rewrite Hsbn, Hsb1, dict_get_set_same. reflexivity.
  - unfold record_of. rewrite Hsb2, Hsbn, Hsb1. apply dict_get_set_same.
Qed.

Lemma unset_round_trips_witness :
  storage_ok bob_carol_storage = true /\
  record_of bob_carol_storage "erin" = None /\
  exists fs1 db fs2,
    register_or_get_user "erin" bob_carol_storage = (Ok unset, fs1) /\
    load_scores (cycles 3 fs1) = (Ok db, fs2) /\
    player_value db "erin" = Ok unset /\
    record_of fs2 "erin" = Some unset /\
    ne_inf unset = false /\
    (forall q : Q,
        float_lt_value (FFin q) unset = Ok true /\
        value_lt unset (VFloat (FFin q)) = Ok false /\
        value_lt (VFloat (FFin q)) unset = Ok true).
Proof.
  split; [reflexivity|]. split; [reflexivity|].
  exact (unset_round_trips "erin" bob_carol_storage 3 eq_refl eq_refl).
Defined.

(* ------------------------------------------------------------------ *)
(** ** The username *)

Lemma lstrip_spec (s : string) :
  exists pre, s = pre ++ lstrip s /\ all_space pre = true /\
              first_is_space (lstrip s) = false.
Proof.
  induction s as [|c s (pre & Heq & Hpre & Hfirst)]; simpl.
  - exists "". auto.
  - destruct (is_space c) eqn:E.
    + exists (String c pre). simpl. rewrite E, Hpre. repeat split; auto.
      now rewrite <- Heq.
    + exists "". simpl. auto.
Qed.

Lemma rstrip_empty (s : string) : rstrip s = "" -> all_space s = true.
Proof.
  induction s as [|c s IH]; simpl; [reflexivity|].
  destruct (rstrip s) eqn:E; [|discriminate].
  destruct (is_space c); [|discriminate].
  intros _. now rewrite IH.
Qed.

Lemma rstrip_spec (s : string) :
  exists post, s = rstrip s ++ post /\ all_space post = true /\
               last_is_space (rstrip s) = false /\
               (first_is_space s = false -> first_is_space (rstrip s) = false).
Proof.
  induction s as [|c s (post & Heq & Hpost & Hlast & _)]; simpl.
  - exists "". auto.
  - destruct (rstrip s) as [|c' r] eqn:E.
    + destruct (is_space c) eqn:Ec.
      * exists (String c s). simpl. rewrite Ec. repeat split; auto.
        now apply rstrip_empty.
      * exists s. simpl. rewrite Ec. repeat split; auto.
        now apply rstrip_empty.
    + exists post. simpl. repeat split; auto.
      simpl in Heq. now rewrite <- Heq.
Qed.

Lemma append_assoc (a b c : string) : (a ++ (b ++ c) = (a ++ b) ++ c)%string.
Proof.
  induction a as [|x a IH]; simpl; [reflexivity|]. now rewrite IH.
Qed.

(** C9 (amended).  The username is the typed line without its leading and
    trailing white space, in lower case; a line that is empty once the
    white space is removed, and a prompt that fails, give ["guest"]. *)
Theorem ask_username_console_strips_and_lowers (line : string) :
  ask_username_console (Ok "") = Ok "guest" /\
  ask_username_console (Raise EOFError) = Ok "guest" /\
  exists pre core post,
    line = ((pre ++ core) ++ post)%string /\
    all_space pre = true /\ all_space post = true /\
    first_is_space core = false /\ last_is_space core = false /\
    ask_username_console (Ok line)
    = Ok (if String.eqb core "" then "guest" else lower core).
Proof.
  split; [reflexivity|]. split; [reflexivity|].
  destruct (lstrip_spec line) as (pre & Hl & Hpre & Hfirst).
  destruct (rstrip_spec (lstrip line)) as (post & Hr & Hpost & Hlast & Hkeep).
  exists pre, (strip line), post. unfold strip at 1.
  repeat split; auto.
  - rewrite <- append_assoc. now rewrite <- Hr.
  - unfold ask_username_console.
    destruct (String.eqb (strip line) "") eqn:E; reflexivity.
Qed.

(** C9 as stated fails on a line with white space around the name: the
    line [" Bob "] gives ["bob"], which is not the line in lower case, and
    a line of three spaces gives ["guest"] though it is not empty. *)
Lemma ask_username_console_not_only_lowercase :
  ask_username_console (Ok " Bob ") = Ok "bob" /\
  lower " Bob " = " bob " /\
  ask_username_console (Ok " Bob ") <> Ok (lower " Bob ") /\
  ask_username_console (Ok "   ") = Ok "guest".
Proof.
  repeat split. discriminate.
Qed.

(* ------------------------------------------------------------------ *)
(** ** The ranking *)

Lemma float_le_trans (a b c : pyfloat) : float_le a b -> float_le b c -> float_le a c.
Proof.
  destruct a, b, c; simpl; try contradiction; trivial.
  apply Qle_trans.
Qed.

Lemma float_ltb_false_le (x y : pyfloat) :
  x <> FNaN -> y <> FNaN -> float_ltb y x = false -> float_le x y.
Proof.
  destruct x, y; simpl; try congruence; trivial.
  intros _ _ H. now apply Qltb_false.
Qed.

Lemma float_ltb_true_le (x y : pyfloat) : float_ltb y x = true -> float_le y x.
Proof.
  destruct x, y; simpl; try discriminate; trivial.
  intro H. apply Qltb_spec in H. now apply Qlt_le_weak.
Qed.

Lemma timed_number (e : entry) :
  timed e -> exists x, as_number (snd e) = Some x /\ x <> FNaN.
Proof.
  unfold timed, is_time. destruct (as_number (snd e)) as [x|]; [|discriminate].
  intro H. exists x. split; [reflexivity|]. intros ->. discriminate.
Qed.

Lemma value_lt_timed (a b : entry) (x y : pyfloat) :
  as_number (snd a) = Some x -> as_number (snd b) = Some y ->
  value_lt (snd a) (snd b) = Ok (float_ltb x y).
Proof.
  intros Ha Hb. unfold value_lt. now rewrite Ha, Hb.
Qed.

Lemma score_le_trans (a b c : entry) : score_le a b -> score_le b c -> score_le a c.
Proof.
  unfold score_le.
  destruct (as_number (snd a)), (as_number (snd b)), (as_number (snd c));
    try contradiction.
  apply float_le_trans.
Qed.

Lemma insert_entry_ok (x : entry) (l : list entry) :
  timed x -> Forall timed l ->
  exists r,
    insert_entry x l = Ok r /\
    Permutation (x :: l) r /\
    Forall timed r /\
    (Sorted score_le l -> Sorted score_le r) /\
    (forall z, score_le z x -> HdRel score_le z l -> HdRel score_le z r).
Proof.
  intros Hx Hl. destruct (timed_number x Hx) as (qx & Hqx & Hnx).
  induction l as [|y l IH]; simpl.
  - exists [x]. repeat split; auto.
  - inversion Hl as [|? ? Hy Hl']; subst.
    destruct (timed_number y Hy) as (qy & Hqy & Hny).
    rewrite (value_lt_timed y x qy qx Hqy Hqx).
    destruct (float_ltb qy qx) eqn:E.
    + destruct (IH Hl') as (r & Hins & Hperm & Htimed & Hsorted & Hhd).
      rewrite Hins. exists (y :: r).
      assert (Hyx : score_le y x).
      { unfold score_le. rewrite Hqy, Hqx. now apply float_ltb_true_le. }
      split; [reflexivity|]. split.
      { apply perm_trans with (y :: x :: l); [apply perm_swap | now apply perm_skip]. }
      split; [now constructor|]. split.
      * intro Hs. inversion Hs; subst. constructor; auto.
      * intros z _ Hz. inversion Hz; subst. now constructor.
    + exists (x :: y :: l).
      assert (Hxy : score_le x y).
      { unfold score_le. rewrite Hqx, Hqy. now apply float_ltb_false_le. }
      split; [reflexivity|]. split; [apply Permutation_refl|].
      split; [now constructor|]. split.
      * intro Hs. constructor; [exact Hs | now constructor].
      * intros z Hzx _. now constructor.
Qed.

Lemma py_sorted_ok (l : list entry) :
  Forall timed l ->
  exists r, py_sorted l = Ok r /\ Permutation l r /\ Forall timed r /\
            Sorted score_le r.
Proof.
  induction l as [|x l IH]; intro Hl; simpl.
  - exists []. repeat split; auto.
  - inversion Hl as [|? ? Hx Hl']; subst.
    destruct (IH Hl') as (r & Hr & Hperm & Htimed & Hsorted).
    rewrite Hr.
    destruct (insert_entry_ok x r Hx Htimed) as (r' & Hins & Hperm' & Htimed' & Hs & _).
    exists r'. repeat split; auto.
    apply perm_trans with (x :: r); [now apply perm_skip | exact Hperm'].
Qed.

Lemma strongly_sorted_nth (l : list entry) :
  StronglySorted score_le l ->
  forall (i j : nat) (a b : entry),
    (i < j)%nat -> nth_error l i = Some a -> nth_error l j = Some b -> score_le a b.
Proof.
  induction 1 as [|x l Hs IH Hall]; intros i j a b Hij Ha Hb.
  - destruct i; discriminate.
  - destruct j as [|j]; [lia|]. simpl in Hb.
    destruct i as [|i]; simpl in Ha.
    + injection Ha as <-. rewrite Forall_forall in Hall.
      apply Hall. exact (nth_error_In _ _ Hb).
    + apply (IH i j); auto. lia.
Qed.

Lemma dict_get_in_keys (p : dict) (u : string) :
  In u (dict_keys p) -> exists v, dict_get u p = Some v.
Proof.
  induction p as [|[k v] p IH]; simpl; [contradiction|].
  intros [->|Hin].
  - rewrite String.eqb_refl. now exists v.
  - destruct (String.eqb u k); [now exists v | now apply IH].
Qed.

Lemma dict_get_value_in (p : dict) (u : string) (v : value) :
  dict_get u p = Some v -> exists k, In (k, v) p.
Proof.
  induction p as [|[k w] p IH]; simpl; [discriminate|].
  destruct (String.eqb u k).
  - intro H. injection H as ->. exists k. now left.
  - intro H. destruct (IH H) as (k' & Hk'). exists k'. now right.
Qed.

Lemma normalized_ok (p : dict) : normalized p = Ok (ranking_entries p).
Proof.
  unfold normalized, ranking_entries.
  assert (H : forall l, (forall u, In u l -> exists v, dict_get u p = Some v) ->
            map_outcome (normalize_entry p) l
            = Ok (map (fun u => (u, display (dict_get_default u unset p))) l)).
  { induction l as [|u l IH]; intro Hin; simpl; [reflexivity|].
    destruct (Hin u (or_introl eq_refl)) as (v & Hv).
    unfold normalize_entry at 1, dict_get_default at 1. rewrite Hv.
    rewrite IH by (intros w Hw; apply Hin; now right). reflexivity. }
  apply H. apply dict_get_in_keys.
Qed.

Lemma is_time_display (v : value) : is_time v = true -> is_time (display v) = true.
Proof.
  unfold display. destruct (ne_inf v); auto.
Qed.

Lemma ranking_entries_timed (p : dict) :
  all_times p = true -> Forall timed (ranking_entries p).
Proof.
  intro Hall. unfold ranking_entries. apply Forall_forall. intros e He.
  apply in_map_iff in He as (u & <- & Hu).
  destruct (dict_get_in_keys p u Hu) as (v & Hv).
  unfold timed, dict_get_default. simpl. rewrite Hv. apply is_time_display.
  destruct (dict_get_value_in p u v Hv) as (k & Hk).
  unfold all_times in Hall. rewrite forallb_forall in Hall.
  exact (Hall (k, v) Hk).
Qed.

Lemma placeholders_full (n : nat) : (5 <= n)%nat -> placeholders n = [].
Proof.
  intro H. unfold placeholders. replace (5 - n)%nat with 0%nat by lia. reflexivity.
Qed.

Lemma placeholders_step (n : nat) :
  (n < 5)%nat ->
  placeholders n = (placeholder_name (n + 1), placeholder_score) :: placeholders (S n).
Proof.
  intro H. unfold placeholders.
  replace (5 - n)%nat with (S (5 - S n)) by lia. simpl.
  now replace (S (n + 1)) with (S n + 1)%nat by lia.
Qed.

(** The loop that pads the ranking stops, and what it appends are the
    placeholders. *)
Lemma pad_placeholders_enough (fuel : nat) (l : list entry) :
  (5 - List.length l <= fuel)%nat ->
  pad_placeholders fuel l = (l ++ placeholders (List.length l))%list.
Proof.
  revert l. induction fuel as [|fuel IH]; intros l Hfuel; simpl.
  - destruct (Nat.ltb_spec (List.length l) 5); [lia|].
    rewrite placeholders_full by lia. now rewrite app_nil_r.
  - destruct (Nat.ltb_spec (List.length l) 5) as [Hlt|Hge].
    + assert (Hlen : List.length
                       (l ++ [(placeholder_name (List.length l + 1), placeholder_score)])
                     = S (List.length l)).
      { rewrite length_app. cbn [List.length]. lia. }
      rewrite IH by (rewrite Hlen; lia).
      rewrite Hlen, (placeholders_step (List.length l) Hlt), <- app_assoc.
      reflexivity.
    + rewrite placeholders_full by lia. now rewrite app_nil_r.
Qed.

Lemma pad_placeholders_length (l : list entry) :
  (5 <= List.length (pad_placeholders 5 l))%nat.
Proof.
  rewrite pad_placeholders_enough by lia.
  rewrite length_app. unfold placeholders. rewrite length_map, length_seq. lia.
Qed.

Lemma ranking_entry_score (p : dict) (ranked : list entry) (e : entry) :
  Permutation (ranking_entries p) ranked ->
  In e ranked ->
  snd e = display (dict_get_default (fst e) unset p).
Proof.
  intros Hperm Hin.
  apply (Permutation_in e (Permutation_sym Hperm)) in Hin.
  unfold ranking_entries in Hin. apply in_map_iff in Hin as (u & <- & _).
  reflexivity.
Qed.

(** What [get_top5] returns on a working storage whose stored values are
    all times. *)
Lemma get_top5_ok (fs : storage) :
  storage_ok fs = true ->
  all_times (scoreboard fs) = true ->
  exists (fs' : storage) (ranked : list entry),
    get_top5 fs = (Ok (firstn 5 (ranked ++ placeholders (List.length ranked))), fs') /\
    scoreboard fs' = scoreboard fs /\
    Permutation (ranking_entries (scoreboard fs)) ranked /\
    StronglySorted score_le ranked.
Proof.
  intros Hok Hall.
  destruct (load_scores_ok _ Hok) as (d & fs1 & Hl & Hp & Hsb & _).
  destruct (py_sorted_ok _ (ranking_entries_timed _ Hall))
    as (ranked & Hsort & Hperm & _ & Hsorted).
  exists fs1, ranked.
  unfold get_top5. set (pad := pad_placeholders 5).
  unfold bind at 1. rewrite Hl.
  unfold bind, lift, ret. simpl. unfold dict_get_default at 1. rewrite Hp.
  rewrite normalized_ok, Hsort. subst pad.
  rewrite pad_placeholders_enough by lia.
  repeat split; auto.
  apply Sorted_StronglySorted; [|exact Hsorted].
  intros a b c. apply score_le_trans.
Qed.

(** C4 (amended).  On a working storage whose stored best times are
    numbers (finite or unset), [get_top5] returns exactly five entries: the
    players in ascending order of the score shown, where an unset player is
    shown with 9999.0, followed by placeholders of score 0 (named
    [user<k>] after their rank) only when there are fewer than five
    players.  An unset player comes after every player whose best time is
    below 9999.  For the scoreboard [{bob: 0.300, carol: 0.210}] the result
    is carol, bob and three placeholders of score 0. *)
Theorem get_top5_ranking :
  (forall fs : storage,
      storage_ok fs = true ->
      all_times (scoreboard fs) = true ->
      exists (top : list entry) (fs' : storage) (ranked : list entry),
        get_top5 fs = (Ok top, fs') /\
        scoreboard fs' = scoreboard fs /\
        List.length top = 5%nat /\
        Permutation (ranking_entries (scoreboard fs)) ranked /\
        StronglySorted score_le ranked /\
        top = firstn 5 (ranked ++ placeholders (List.length ranked)) /\
        (forall (i j : nat) (a b : entry) (q : Q),
            nth_error ranked i = Some a ->
            nth_error ranked j = Some b ->
            best fs (fst a) = unset ->
            best fs (fst b) = VFloat (FFin q) ->
            q < 9999 ->
            (j < i)%nat)) /\
  get_top5 bob_carol_storage
  = (Ok [("carol", VFloat (FFin (21 # 100)));
         ("bob", VFloat (FFin (3 # 10)));
         ("user3", VFloat (FFin 0));
         ("user4", VFloat (FFin 0));
         ("user5", VFloat (FFin 0))],
     bob_carol_storage).
Proof.
  split; [|reflexivity].
  intros fs Hok Hall.
  destruct (get_top5_ok fs Hok Hall) as (fs' & ranked & Hrun & Hsb & Hperm & Hsorted).
  exists (firstn 5 (ranked ++ placeholders (List.length ranked))), fs', ranked.
  repeat split; auto.
  - apply firstn_length_le. rewrite length_app.
    unfold placeholders. rewrite length_map, length_seq. lia.
  - intros i j a b q Ha Hb Hunset Htime Hq.
    assert (Hsa : snd a = display_unset).
    { rewrite (ranking_entry_score _ _ a Hperm (nth_error_In _ _ Ha)).
      unfold best in Hunset. now rewrite Hunset. }
    assert (Hsb' : snd b = VFloat (FFin q)).
    { rewrite (ranking_entry_score _ _ b Hperm (nth_error_In _ _ Hb)).
      unfold best in Htime. now rewrite Htime. }
    destruct (Nat.lt_trichotomy i j) as [Hlt|[->|Hgt]]; [| |exact Hgt].
    + pose proof (strongly_sorted_nth ranked Hsorted i j a b Hlt Ha Hb) as Hle.
      unfold score_le in Hle. rewrite Hsa, Hsb' in Hle. simpl in Hle.
      exfalso. exact (Qlt_not_le _ _ Hq Hle).
    + rewrite Ha in Hb. injection Hb as <-. rewrite Hunset in Htime. discriminate.
Qed.

Lemma get_top5_ranking_witness :
  storage_ok bob_carol_storage = true /\
  all_times (scoreboard bob_carol_storage) = true /\
  exists (top : list entry) (fs' : storage) (ranked : list entry),
    get_top5 bob_carol_storage = (Ok top, fs') /\
    scoreboard fs' = scoreboard bob_carol_storage /\
    List.length top = 5%nat /\
    Permutation (ranking_entries (scoreboard bob_carol_storage)) ranked /\
    StronglySorted score_le ranked /\
    top = firstn 5 (ranked ++ placeholders (List.length ranked)) /\
    (forall (i j : nat) (a b : entry) (q : Q),
        nth_error ranked i = Some a ->
        nth_error ranked j = Some b ->
        best bob_carol_storage (fst a) = unset ->
        best bob_carol_storage (fst b) = VFloat (FFin q) ->
        q < 9999 ->
        (j < i)%nat).
Proof.
  split; [reflexivity|]. split; [reflexivity|].
  exact (proj1 get_top5_ranking bob_carol_storage eq_refl eq_refl).
Defined.

(** C4 as stated fails when a player has a best time above 9999 seconds:
    with the scoreboard [{ana: unset, ben: 10000.0}] the unset player ana
    is ranked first, before ben. *)
Lemma get_top5_unset_before_slow_player :
  storage_ok ana_ben_storage = true /\
  best ana_ben_storage "ana" = unset /\
  best ana_ben_storage "ben" = VFloat (FFin 10000) /\
  get_top5 ana_ben_storage
  = (Ok [("ana", VFloat (FFin 9999));
         ("ben", VFloat (FFin 10000));
         ("user3", VFloat (FFin 0));
         ("user4", VFloat (FFin 0));
         ("user5", VFloat (FFin 0))],
     ana_ben_storage).
Proof.
  repeat split.
Qed.

(* ------------------------------------------------------------------ *)
(** ** Two scenarios, run on the model *)

(** A new player alice scores 0.253 s: the update returns [True] and the
    record is 0.253.  A second round of 0.400 s returns [False] and leaves
    the record. *)
Example alice_two_rounds :
  exists fs1 fs2,
    update_score "alice" (FFin (253 # 1000)) alice_new_storage = (Ok true, fs1) /\
    record_of fs1 "alice" = Some (VFloat (FFin (253 # 1000))) /\
    update_score "alice" (FFin (4 # 10)) fs1 = (Ok false, fs2) /\
    fs2 = fs1.
Proof.
  eexists; eexists. repeat split.
Qed.

(** One round of the game, frame by frame: a click on the start screen
    (at time 100, with a delay of 4 s), a premature click, the delay
    elapsing at time 104, and the response at time 104.253. *)
Example one_round_of_the_game :
  let click_at t := (mkEnv false 4 t, MOUSEBUTTONDOWN 1) in
  let play :=
    (s1 <- frame "alice" [click_at 100] 100 initial_session ;;
     s2 <- frame "alice" [click_at 102] 102 s1 ;;
     s3 <- frame "alice" [] 104 s2 ;;
     s4 <- frame "alice" [click_at (104253 # 1000)] (104253 # 1000) s3 ;;
     ret (game_state s1, game_state s2, game_state s3, game_state s4,
          last_update_message s4)) in
  exists fs',
    play alice_new_storage
    = (Ok (waiting, waiting, click, result, NewBest (253 # 1000)), fs') /\
    record_of fs' "alice" = Some (VFloat (FFin (253 # 1000))).
Proof.
  eexists. split; reflexivity.
Qed.

(* ------------------------------------------------------------------ *)
(** ** More about [load_scores] and [save_scores] *)

(** How [load_scores] ends: with a document, or with one of the errors
    that its [except] clause does not name. *)
Lemma load_scores_cases (fs : storage) :
  match load_scores fs with
  | (Ok db, _) => has_players_mapping db = true
  | (Raise e, fs') =>
      fs' = fs /\ readable fs = true /\ escapes_load e (file fs)
  end.
Proof.
  destruct fs as [f r w n]. unfold escapes_load.
  destruct f as [[| | |v]|]; destruct r, w; try reflexivity;
    try (simpl; repeat split; auto; fail).
  all: rewrite (load_scores_exists _ (Parsed v)) by reflexivity.
  all: unfold read_scores, try_except, bind, load_from_file, lift, ret; simpl.
  all: try reflexivity.
  all: destruct v; simpl; try (repeat split; eauto 6; fail).
  all: try match goal with
           | |- context [is_substring ?a ?b] =>
               destruct (is_substring a b); simpl;
               [repeat split; eauto 6 | reflexivity]
           | |- context [existsb ?f ?l] =>
               destruct (existsb f l); simpl; [repeat split; eauto 6 | reflexivity]
           end.
  all: unfold dict_mem; destruct (dict_get "players" d) as [pv|] eqn:E; simpl;
    [|reflexivity].
  all: destruct pv; simpl; try reflexivity; now rewrite E.
Qed.


(** The two errors of reading that [load_scores] lets through, on a file
    that the storage would accept to overwrite: the file is left as it
    is. *)
Lemma load_scores_raises_on_bad_bytes (n : nat) :
  load_scores (mkStorage (Some Undecodable) true true n)
  = (Raise UnicodeDecodeError, mkStorage (Some Undecodable) true true n) /\
  load_scores (mkStorage (Some TooDeeplyNested) true true n)
  = (Raise RecursionError, mkStorage (Some TooDeeplyNested) true true n).
Proof. split; reflexivity. Qed.

(** X2.  When there is no file, [load_scores] returns the empty scoreboard
    and never raises; the file is created with the empty scoreboard if the
    storage accepts the write, and the storage is left without a file
    otherwise. *)
Theorem load_scores_missing_file (fs : storage) :
  file fs = None ->
  readable fs = true ->
  load_scores fs
  = (Ok empty_scoreboard, if writable fs then written empty_scoreboard fs else fs).
Proof.
  destruct fs as [f r w n]. simpl. intros -> ->. destruct w; reflexivity.
Qed.

Lemma load_scores_missing_file_witness :
  file alice_new_storage = None /\
  readable alice_new_storage = true /\
  load_scores alice_new_storage
  = (Ok empty_scoreboard, mkStorage (Some (Parsed empty_scoreboard)) true true 1).
Proof.
  split; [reflexivity|]. split; [reflexivity|].
  exact (load_scores_missing_file alice_new_storage eq_refl eq_refl).
Defined.

(** X3.  A file that exists but cannot be opened for reading is treated as
    a corrupt one: [load_scores] returns the empty scoreboard without
    raising and, if the storage accepts the write, replaces the file by the
    empty scoreboard, so that the records it held are gone. *)
Theorem load_scores_unreadable_file (fs : storage) (c : content) :
  file fs = Some c ->
  readable fs = false ->
  load_scores fs
  = (Ok empty_scoreboard, if writable fs then written empty_scoreboard fs else fs) /\
  (writable fs = true -> scoreboard (storage_after load_scores fs) = []).
Proof.
  destruct fs as [f r w n]. simpl. intros -> ->.
  destruct w; split; try reflexivity. discriminate.
Qed.

Lemma load_scores_unreadable_file_witness :
  file unreadable_storage
  = Some (Parsed (VDict [("players", VDict [("bob", VFloat (FFin (3 # 10)))])])) /\
  readable unreadable_storage = false /\
  load_scores unreadable_storage
  = (Ok empty_scoreboard, mkStorage (Some (Parsed empty_scoreboard)) false true 1) /\
  (writable unreadable_storage = true ->
   scoreboard (storage_after load_scores unreadable_storage) = []).
Proof.
  split; [reflexivity|]. split; [reflexivity|].
  exact (load_scores_unreadable_file unreadable_storage _ eq_refl eq_refl).
Defined.

(** A file that can be read and parsed is never written by [load_scores]. *)
Lemma load_scores_keeps_parsed_file (fs : storage) (v : value) :
  readable fs = true ->
  file fs = Some (Parsed v) ->
  storage_after load_scores fs = fs.
Proof.
  intros Hr Hf. unfold storage_after.
  rewrite (load_scores_exists _ _ Hf).
  unfold read_scores, try_except, bind, load_from_file, lift, ret.
  rewrite Hf, Hr. simpl.
  destruct v; simpl; try reflexivity.
  - destruct (is_substring "players" s); reflexivity.
  - destruct (existsb (is_str "players") l); reflexivity.
  - unfold dict_mem. destruct (dict_get "players" d) as [pv|]; simpl; [|reflexivity].
    destruct pv; reflexivity.
Qed.

(** X4.  On a storage that can be read, [load_scores] is idempotent: a
    second call right after the first has the same result and leaves the
    storage, the count of writes included, as the first call left it. *)
Theorem load_scores_idempotent (fs : storage) :
  readable fs = true ->
  load_scores (storage_after load_scores fs)
  = (fst (load_scores fs), storage_after load_scores fs).
Proof.
  intro Hr. destruct (file fs) as [[| | |v]|] eqn:Hf.
  - destruct fs as [f r w n]. simpl in *. subst. destruct w; reflexivity.
  - destruct fs as [f r w n]. simpl in *. subst. reflexivity.
  - destruct fs as [f r w n]. simpl in *. subst. reflexivity.
  - rewrite (load_scores_keeps_parsed_file fs v Hr Hf).
    pose proof (load_scores_keeps_parsed_file fs v Hr Hf) as Hs.
    unfold storage_after in Hs.
    destruct (load_scores fs) as [o fs1]. simpl in *. now subst.
  - destruct fs as [f r w n]. simpl in *. subst. destruct w; reflexivity.
Qed.

Lemma load_scores_idempotent_witness :
  readable garbage_storage = true /\
  load_scores (storage_after load_scores garbage_storage)
  = (fst (load_scores garbage_storage), storage_after load_scores garbage_storage).
Proof.
  split; [reflexivity|].
  exact (load_scores_idempotent garbage_storage eq_refl).
Defined.

(** X5.  Save followed by load is a round trip: on a storage that can be
    read and written, a document with a ["players"] mapping that
    [save_scores] wrote is what the next [load_scores] returns, and that
    load writes nothing. *)
Theorem save_then_load (d p : dict) (fs : storage) :
  readable fs = true ->
  writable fs = true ->
  dict_get "players" d = Some (VDict p) ->
  (save_scores (VDict d) ;;; load_scores) fs = (Ok (VDict d), written (VDict d) fs).
Proof.
  intros Hr Hw Hp. unfold bind. rewrite save_scores_run, Hw.
  rewrite (load_scores_exists _ (Parsed (VDict d))) by reflexivity.
  now apply read_scores_valid with (p := p).
Qed.

Lemma save_then_load_witness :
  readable garbage_storage = true /\
  writable garbage_storage = true /\
  dict_get "players" [("players", VDict [("bob", unset)]); ("version", VInt 2)]
  = Some (VDict [("bob", unset)]) /\
  (save_scores (VDict [("players", VDict [("bob", unset)]); ("version", VInt 2)]) ;;;
   load_scores) garbage_storage
  = (Ok (VDict [("players", VDict [("bob", unset)]); ("version", VInt 2)]),
     written (VDict [("players", VDict [("bob", unset)]); ("version", VInt 2)])
             garbage_storage).
Proof.
  split; [reflexivity|]. split; [reflexivity|]. split; [reflexivity|].
  exact (save_then_load [("players", VDict [("bob", unset)]); ("version", VInt 2)]
           [("bob", unset)] garbage_storage eq_refl eq_refl eq_refl).
Defined.

(* ------------------------------------------------------------------ *)
(** ** More about the records *)

Lemma dict_keys_set (u : string) (v : value) (p : dict) :
  dict_keys (dict_set u v p)
  = if dict_mem u p then dict_keys p else (dict_keys p ++ [u])%list.
Proof.
  unfold dict_mem. induction p as [|[k w] p IH]; simpl; [reflexivity|].
  destruct (String.eqb u k) eqn:E; simpl; [reflexivity|].
  unfold dict_keys in *. rewrite IH.
  destruct (dict_get u p); reflexivity.
Qed.

Lemma run_op_keys (o : store_op) (fs : storage) :
  storage_ok fs = true ->
  exists new,
    dict_keys (scoreboard (run_op o fs)) = (dict_keys (scoreboard fs) ++ new)%list.
Proof.
  intro Hok.
  assert (Hload : exists new,
             dict_keys (scoreboard (storage_after load_scores fs))
             = (dict_keys (scoreboard fs) ++ new)%list).
  { destruct (load_scores_ok _ Hok) as (d & fs1 & Hl & _ & Hsb & _).
    unfold storage_after. rewrite Hl. simpl. rewrite Hsb.
    exists []. now rewrite app_nil_r. }
  destruct o as [|w|w t|]; simpl.
  - exact Hload.
  - destruct (register_or_get_user_ok w fs Hok) as (fs' & Hrun & _ & Hsb).
    unfold storage_after. rewrite Hrun. simpl. rewrite Hsb. unfold record_of.
    destruct (dict_get w (scoreboard fs)) as [x|] eqn:E.
    + exists []. now rewrite app_nil_r.
    + rewrite dict_keys_set. unfold dict_mem. rewrite E. now exists [w].
  - destruct (update_score_ok w t fs Hok) as (b & fs' & Hrun & _ & _ & Hset & Hkeep & _).
    unfold storage_after. rewrite Hrun. simpl. destruct b.
    + rewrite (Hset eq_refl), dict_keys_set.
      destruct (dict_mem w (scoreboard fs)); [exists [] | exists [w]]; auto.
      now rewrite app_nil_r.
    + rewrite (Hkeep eq_refl). exists []. now rewrite app_nil_r.
  - rewrite get_top5_storage. exact Hload.
Qed.

(** X6.  On a working storage no sequence of store operations removes a
    player or changes the order of the players that were there: the
    usernames of the scoreboard afterwards are those of before, in the
    same order, followed by the ones that were added. *)
Theorem players_never_removed (ops : list store_op) (fs : storage) :
  storage_ok fs = true ->
  exists new,
    dict_keys (scoreboard (run_ops ops fs)) = (dict_keys (scoreboard fs) ++ new)%list.
Proof.
  revert fs. induction ops as [|o ops IH]; intros fs Hok; simpl.
  - exists []. now rewrite app_nil_r.
  - destruct (run_op_keys o fs Hok) as (new1 & H1).
    destruct (run_op_ok o "" fs Hok) as (Hok1 & _).
    destruct (IH _ Hok1) as (new2 & H2).
    exists (new1 ++ new2)%list. now rewrite H2, H1, app_assoc.
Qed.

Lemma players_never_removed_witness :
  storage_ok bob_carol_storage = true /\
  exists new,
    dict_keys (scoreboard (run_ops [OpUpdate "carol" (FFin (1 # 10));
                                    OpRegister "erin"; OpTop5;
                                    OpUpdate "bob" (FFin (2 # 10))]
                                   bob_carol_storage))
    = (dict_keys (scoreboard bob_carol_storage) ++ new)%list.
Proof.
  split; [reflexivity|].
  exact (players_never_removed
           [OpUpdate "carol" (FFin (1 # 10)); OpRegister "erin"; OpTop5;
            OpUpdate "bob" (FFin (2 # 10))]
           bob_carol_storage eq_refl).
Defined.

Lemma load_leaves_object (fs : storage) :
  storage_ok fs = true ->
  exists d, file (storage_after load_scores fs) = Some (Parsed (VDict d)).
Proof.
  intro Hok. destruct (storage_ok_parts _ Hok) as (Hr & Hw & Ho).
  destruct (file fs) as [[| | |v]|] eqn:Hf; try discriminate Ho.
  - destruct fs as [f r w n]. simpl in *. subst. eexists. reflexivity.
  - destruct v; try discriminate Ho.
    rewrite (load_scores_keeps_parsed_file fs _ Hr Hf). now exists d.
  - destruct fs as [f r w n]. simpl in *. subst. eexists. reflexivity.
Qed.

Lemma update_score_leaves_object (u : string) (t : pyfloat) (fs : storage) :
  storage_ok fs = true ->
  exists d, file (storage_after (update_score u t) fs) = Some (Parsed (VDict d)).
Proof.
  intro Hok.
  destruct (load_scores_ok _ Hok) as (d & fs1 & Hl & Hp & _ & Hok1 & _).
  destruct (load_leaves_object fs Hok) as (d0 & Hobj).
  unfold storage_after in Hobj. rewrite Hl in Hobj. simpl in Hobj.
  destruct (storage_ok_parts _ Hok1) as (_ & Hw & _).
  unfold storage_after at 1. rewrite (update_score_run u t _ _ _ _ Hl Hp).
  destruct (float_lt_value t (dict_get_default u unset (scoreboard fs))) as [[|]|e];
    simpl; try (now exists d0).
  unfold storage_after. rewrite save_scores_run, Hw. simpl. eexists. reflexivity.
Qed.

Lemma float_lt_irrefl (t : pyfloat) : ~ float_lt t t.
Proof.
  intro H. exact (float_lt_asym t t H H).
Qed.

(** X7.  On a working storage a repeated [update_score u t] changes
    nothing: whatever the first call returned, the same call again returns
    [False] and leaves the storage, the count of writes included, as it
    was. *)
Theorem update_score_repeated (u : string) (t : pyfloat) (fs : storage) :
  storage_ok fs = true ->
  exists (b : bool) (fs1 : storage),
    update_score u t fs = (Ok b, fs1) /\
    update_score u t fs1 = (Ok false, fs1).
Proof.
  intro Hok.
  destruct (update_score_leaves_object u t fs Hok) as (d & Hobj).
  destruct (update_score_ok u t fs Hok) as (b & fs1 & Hrun & Hok1 & Hiff & Hset & Hkeep & _).
  unfold storage_after in Hobj. rewrite Hrun in Hobj. simpl in Hobj.
  exists b, fs1. split; [exact Hrun|].
  assert (Hno : ~ improves t (best fs1 u)).
  { destruct b.
    - unfold best. rewrite (Hset eq_refl), dict_get_default_set_same.
      apply float_lt_irrefl.
    - rewrite (best_eq_scoreboard _ _ u (Hkeep eq_refl)).
      intro H. apply Hiff in H. discriminate. }
  destruct (update_score_ok u t fs1 Hok1) as (b2 & fs2 & Hrun2 & _ & Hiff2 & _ & _ & Hfile).
  destruct b2.
  - exfalso. apply Hno. now apply Hiff2.
  - now rewrite Hrun2, (Hfile eq_refl d Hobj).
Qed.

Lemma update_score_repeated_witness :
  storage_ok bob_carol_storage = true /\
  exists (b : bool) (fs1 : storage),
    update_score "bob" (FFin (25 # 100)) bob_carol_storage = (Ok b, fs1) /\
    update_score "bob" (FFin (25 # 100)) fs1 = (Ok false, fs1).
Proof.
  split; [reflexivity|].
  exact (update_score_repeated "bob" (FFin (25 # 100)) bob_carol_storage eq_refl).
Defined.

(** X8.  The first score of a new player is always a new best: after
    [register_or_get_user u] for a player without a record, on a working
    storage, [update_score u t] returns [True] for every finite time [t],
    however large, and stores it. *)
Theorem first_score_is_a_new_best (u : string) (q : Q) (fs : storage) :
  storage_ok fs = true ->
  record_of fs u = None ->
  exists fs1 fs2,
    register_or_get_user u fs = (Ok unset, fs1) /\
    update_score u (FFin q) fs1 = (Ok true, fs2) /\
    record_of fs2 u = Some (VFloat (FFin q)).
Proof.
  intros Hok Hnew.
  destruct (register_or_get_user_ok u fs Hok) as (fs1 & Hrun & Hok1 & Hsb1).
  rewrite Hnew in Hsb1.
  assert (Hb : best fs u = unset).
  { unfold best, dict_get_default. unfold record_of in Hnew. now rewrite Hnew. }
  rewrite Hb in Hrun.
  assert (Himp : improves (FFin q) (best fs1 u)).
  { unfold best. rewrite Hsb1, dict_get_default_set_same. exact I. }
  destruct (update_score_improving u (FFin q) fs1 Hok1 Himp) as (fs2 & Hrun2 & _ & Hsb2).
  exists fs1, fs2. repeat split; auto.
  unfold record_of. rewrite Hsb2. apply dict_get_set_same.
Qed.

Lemma first_score_is_a_new_best_witness :
  storage_ok bob_carol_storage = true /\
  record_of bob_carol_storage "erin" = None /\
  exists fs1 fs2,
    register_or_get_user "erin" bob_carol_storage = (Ok unset, fs1) /\
    update_score "erin" (FFin 12000) fs1 = (Ok true, fs2) /\
    record_of fs2 "erin" = Some (VFloat (FFin 12000)).
Proof.
  split; [reflexivity|]. split; [reflexivity|].
  exact (first_score_is_a_new_best "erin" 12000 bob_carol_storage eq_refl eq_refl).
Defined.

(* ------------------------------------------------------------------ *)
(** ** More about the ranking *)

Lemma all_times_set (u : string) (v : value) (p : dict) :
  all_times p = true -> is_time v = true -> all_times (dict_set u v p) = true.
Proof.
  unfold all_times. intros Hp Hv. induction p as [|[k w] p IH]; simpl in *.
  - now rewrite Hv.
  - apply andb_true_iff in Hp as [Hw Hp].
    destruct (String.eqb u k); simpl.
    + now rewrite Hv, Hp.
    + now rewrite Hw, IH.
Qed.

Lemma improves_is_time (t : pyfloat) (v : value) :
  improves t v -> is_time (VFloat t) = true.
Proof.
  unfold improves. destruct (as_number v) as [x|]; [|contradiction].
  destruct t; simpl; try contradiction; reflexivity.
Qed.

Lemma run_op_times (o : store_op) (fs : storage) :
  storage_ok fs = true ->
  all_times (scoreboard fs) = true ->
  all_times (scoreboard (run_op o fs)) = true.
Proof.
  intros Hok Hall.
  assert (Hload : all_times (scoreboard (storage_after load_scores fs)) = true).
  { destruct (load_scores_ok _ Hok) as (d & fs1 & Hl & _ & Hsb & _).
    unfold storage_after. rewrite Hl. simpl. now rewrite Hsb. }
  destruct o as [|w|w t|]; simpl.
  - exact Hload.
  - destruct (register_or_get_user_ok w fs Hok) as (fs' & Hrun & _ & Hsb).
    unfold storage_after. rewrite Hrun. simpl. rewrite Hsb.
    destruct (record_of fs w); [exact Hall|]. now apply all_times_set.
  - destruct (update_score_ok w t fs Hok) as (b & fs' & Hrun & _ & Hiff & Hset & Hkeep & _).
    unfold storage_after. rewrite Hrun. simpl. destruct b.
    + rewrite (Hset eq_refl). apply all_times_set; [exact Hall|].
      apply improves_is_time with (v := best fs w). now apply Hiff.
    + now rewrite (Hkeep eq_refl).
  - rewrite get_top5_storage. exact Hload.
Qed.

(** X9.  The store keeps the scoreboard rankable: on a working storage
    whose stored values are all times, the stored values are still all
    times after any sequence of store operations (no update writes a NaN),
    and [get_top5] then returns five entries without raising. *)
Theorem scoreboard_stays_rankable (ops : list store_op) (fs : storage) :
  storage_ok fs = true ->
  all_times (scoreboard fs) = true ->
  all_times (scoreboard (run_ops ops fs)) = true /\
  exists top fs',
    get_top5 (run_ops ops fs) = (Ok top, fs') /\ List.length top = 5%nat.
Proof.
  intros Hok Hall.
  assert (H : storage_ok (run_ops ops fs) = true /\
              all_times (scoreboard (run_ops ops fs)) = true).
  { revert fs Hok Hall. induction ops as [|o ops IH]; intros fs Hok Hall; simpl.
    - auto.
    - destruct (run_op_ok o "" fs Hok) as (Hok1 & _).
      apply IH; [exact Hok1 | now apply run_op_times]. }
  destruct H as [Hok' Hall']. split; [exact Hall'|].
  destruct (get_top5_ok _ Hok' Hall') as (fs' & ranked & Hrun & _).
  eexists; eexists. split; [exact Hrun|].
  apply firstn_length_le. rewrite length_app.
  unfold placeholders. rewrite length_map, length_seq. lia.
Qed.

Lemma scoreboard_stays_rankable_witness :
  storage_ok alice_new_storage = true /\
  all_times (scoreboard alice_new_storage) = true /\
  all_times (scoreboard (run_ops [OpRegister "alice"; OpUpdate "alice" FNaN;
                                  OpUpdate "alice" (FFin (4 # 10))]
                                 alice_new_storage)) = true /\
  exists top fs',
    get_top5 (run_ops [OpRegister "alice"; OpUpdate "alice" FNaN;
                       OpUpdate "alice" (FFin (4 # 10))]
                      alice_new_storage) = (Ok top, fs') /\
    List.length top = 5%nat.
Proof.
  split; [reflexivity|]. split; [reflexivity|].
  exact (scoreboard_stays_rankable
           [OpRegister "alice"; OpUpdate "alice" FNaN; OpUpdate "alice" (FFin (4 # 10))]
           alice_new_storage eq_refl eq_refl).
Defined.

Lemma map_outcome_forall {A B} (f : A -> outcome B) (P : B -> Prop)
  (l : list A) (r : list B) :
  (forall x y, f x = Ok y -> P y) ->
  map_outcome f l = Ok r -> Forall P r.
Proof.
  intro Hf. revert r. induction l as [|x l IH]; simpl; intros r H.
  - injection H as <-. constructor.
  - destruct (f x) as [y|e] eqn:E; [|discriminate].
    destruct (map_outcome f l) as [r'|e]; [|discriminate].
    injection H as <-. constructor; [exact (Hf x y E) | now apply IH].
Qed.

Lemma insert_entry_perm (x : entry) (l r : list entry) :
  insert_entry x l = Ok r -> Permutation (x :: l) r.
Proof.
  revert r. induction l as [|y l IH]; simpl; intros r H.
  - injection H as <-. apply Permutation_refl.
  - destruct (value_lt (snd y) (snd x)) as [[|]|e]; try discriminate.
    + destruct (insert_entry x l) as [r'|e]; [|discriminate].
      injection H as <-.
      apply perm_trans with (y :: x :: l); [apply perm_swap|].
      apply perm_skip. now apply IH.
    + injection H as <-. apply Permutation_refl.
Qed.

Lemma py_sorted_perm (l r : list entry) : py_sorted l = Ok r -> Permutation l r.
Proof.
  revert r. induction l as [|x l IH]; simpl; intros r H.
  - injection H as <-. constructor.
  - destruct (py_sorted l) as [r'|e]; [|discriminate].
    apply perm_trans with (x :: r'); [apply perm_skip; now apply IH|].
    now apply insert_entry_perm.
Qed.

(** X10.  Whatever the storage holds, a call of [get_top5] that returns
    returns exactly five entries, and none of them carries
    [float("inf")]: an unset player is shown with 9999.0. *)
Theorem get_top5_five_finite_entries
  (fs fs' : storage) (top : list entry) :
  get_top5 fs = (Ok top, fs') ->
  List.length top = 5%nat /\ Forall (fun e => snd e <> unset) top.
Proof.
  unfold get_top5. set (pad := pad_placeholders 5).
  unfold bind at 1. destruct (load_scores fs) as [[db|e] fs1]; [|discriminate].
  unfold bind, lift, ret, raise.
  destruct (py_get_default db "players" (VDict [])) as [players|e]; [|discriminate].
  destruct players as [| | | | | |d]; try discriminate.
  destruct (normalized d) as [norm|e] eqn:Hnorm; [|discriminate].
  destruct (py_sorted norm) as [r|e] eqn:Hsort; [|discriminate].
  intro H. subst pad.
  assert (Ht : top = firstn 5 (pad_placeholders 5 r)) by congruence.
  clear H. subst top. split.
  - apply firstn_length_le. apply pad_placeholders_length.
  - assert (Hall : Forall (fun e => snd e <> unset) (pad_placeholders 5 r)).
    { rewrite pad_placeholders_enough by lia. apply Forall_app. split.
      - apply Forall_forall. intros e He.
        apply (Permutation_in e (Permutation_sym (py_sorted_perm _ _ Hsort))) in He.
        assert (Hn : Forall (fun e => snd e <> unset) norm).
        { apply (map_outcome_forall (normalize_entry d) _ _ _) with (2 := Hnorm).
          intros u y. unfold normalize_entry.
          destruct (dict_get u d) as [v|]; [|discriminate].
          intro Hy. injection Hy as <-. simpl.
          destruct v as [| | |[]| | |]; simpl; discriminate. }
        rewrite Forall_forall in Hn. now apply Hn.
      - apply Forall_forall. intros e He. unfold placeholders in He.
        apply in_map_iff in He as (k & <- & _). discriminate. }
    rewrite Forall_forall in *. intros e He. apply Hall.
    rewrite <- (firstn_skipn 5 (pad_placeholders 5 r)). apply in_or_app. now left.
Qed.

Lemma get_top5_five_finite_entries_witness :
  get_top5 ana_ben_storage
  = (Ok [("ana", VFloat (FFin 9999)); ("ben", VFloat (FFin 10000));
         ("user3", VFloat (FFin 0)); ("user4", VFloat (FFin 0));
         ("user5", VFloat (FFin 0))],
     ana_ben_storage) /\
  List.length [("ana", VFloat (FFin 9999)); ("ben", VFloat (FFin 10000));
               ("user3", VFloat (FFin 0)); ("user4", VFloat (FFin 0));
               ("user5", VFloat (FFin 0))] = 5%nat /\
  Forall (fun e : entry => snd e <> unset)
         [("ana", VFloat (FFin 9999)); ("ben", VFloat (FFin 10000));
          ("user3", VFloat (FFin 0)); ("user4", VFloat (FFin 0));
          ("user5", VFloat (FFin 0))].
Proof.
  split; [reflexivity|].
  exact (get_top5_five_finite_entries ana_ben_storage ana_ben_storage _ eq_refl).
Defined.

Lemma float_le_refl (x : pyfloat) : x <> FNaN -> float_le x x.
Proof.
  destruct x; simpl; try congruence; trivial. intros _. apply Qle_refl.
Qed.

Lemma score_le_refl (e : entry) : timed e -> score_le e e.
Proof.
  intro He. destruct (timed_number e He) as (x & Hx & Hn).
  unfold score_le. rewrite Hx. now apply float_le_refl.
Qed.

(** How [get_top5] runs on a working storage whose stored values are all
    times: the ranking is what the sort makes of the entries. *)
Lemma get_top5_run (fs : storage) :
  storage_ok fs = true ->
  all_times (scoreboard fs) = true ->
  exists ranked,
    py_sorted (ranking_entries (scoreboard fs)) = Ok ranked /\
    get_top5 fs
    = (Ok (firstn 5 (ranked ++ placeholders (List.length ranked))),
       storage_after load_scores fs).
Proof.
  intros Hok Hall.
  destruct (load_scores_ok _ Hok) as (d & fs1 & Hl & Hp & _).
  destruct (py_sorted_ok _ (ranking_entries_timed _ Hall)) as (ranked & Hsort & _).
  exists ranked. split; [exact Hsort|].
  unfold storage_after, get_top5. set (pad := pad_placeholders 5).
  unfold bind at 1. rewrite Hl.
  unfold bind, lift, ret. simpl. unfold dict_get_default at 1. rewrite Hp.
  rewrite normalized_ok, Hsort. subst pad.
  now rewrite pad_placeholders_enough by lia.
Qed.

(** X11.  On a working storage whose stored values are all times and which
    has at least one player, the first entry of [get_top5] is a player of
    the scoreboard with the score shown for it, and no player of the
    scoreboard has a smaller score. *)
Theorem get_top5_best_player_first (fs : storage) :
  storage_ok fs = true ->
  all_times (scoreboard fs) = true ->
  scoreboard fs <> [] ->
  exists top fs' first,
    get_top5 fs = (Ok top, fs') /\
    nth_error top 0 = Some first /\
    In (fst first) (dict_keys (scoreboard fs)) /\
    snd first = display (best fs (fst first)) /\
    forall w, In w (dict_keys (scoreboard fs)) ->
              score_le first (w, display (best fs w)).
Proof.
  intros Hok Hall Hne.
  destruct (get_top5_ok fs Hok Hall) as (fs' & ranked & Hrun & _ & Hperm & Hsorted).
  destruct ranked as [|first rest].
  - apply Permutation_sym, Permutation_nil in Hperm.
    unfold ranking_entries, dict_keys in Hperm.
    destruct (scoreboard fs); [congruence | discriminate].
  - exists (firstn 5 ((first :: rest) ++ placeholders (List.length (first :: rest)))),
      fs', first.
    split; [exact Hrun|]. split; [reflexivity|].
    assert (Hin : In first (ranking_entries (scoreboard fs))).
    { apply (Permutation_in first (Permutation_sym Hperm)). now left. }
    unfold ranking_entries in Hin. apply in_map_iff in Hin as (u & Hu & Hkey).
    subst first. simpl. split; [exact Hkey|]. split; [reflexivity|].
    intros w Hw.
    assert (Hw' : In (w, display (best fs w)) ((u, display (best fs u)) :: rest)).
    { apply (Permutation_in _ Hperm). unfold ranking_entries.
      apply in_map_iff. exists w. split; [reflexivity | exact Hw]. }
    inversion Hsorted as [|? ? _ Hall']; subst.
    destruct Hw' as [<-|Hrest].
    + apply score_le_refl.
      pose proof (ranking_entries_timed _ Hall) as Ht.
      rewrite Forall_forall in Ht. apply Ht. unfold ranking_entries.
      apply in_map_iff. exists u. split; [reflexivity | exact Hkey].
    + rewrite Forall_forall in Hall'. now apply Hall'.
Qed.

Lemma get_top5_best_player_first_witness :
  storage_ok bob_carol_storage = true /\
  all_times (scoreboard bob_carol_storage) = true /\
  scoreboard bob_carol_storage <> [] /\
  exists top fs' first,
    get_top5 bob_carol_storage = (Ok top, fs') /\
    nth_error top 0 = Some first /\
    In (fst first) (dict_keys (scoreboard bob_carol_storage)) /\
    snd first = display (best bob_carol_storage (fst first)) /\
    forall w, In w (dict_keys (scoreboard bob_carol_storage)) ->
              score_le first (w, display (best bob_carol_storage w)).
Proof.
  split; [reflexivity|]. split; [reflexivity|].
  assert (Hne : scoreboard bob_carol_storage <> []) by discriminate.
  split; [exact Hne|].
  exact (get_top5_best_player_first bob_carol_storage eq_refl eq_refl Hne).
Defined.

Lemma float_le_not_ltb (x y : pyfloat) : float_le x y -> float_ltb y x = false.
Proof.
  destruct x, y; simpl; try contradiction; trivial.
  intro H. now apply Qltb_false.
Qed.

(** An entry that is smaller than [x] is not tied with what [x] is tied
    with. *)
Lemma tied_not_both (k x y : entry) (qx qy : pyfloat) :
  timed k -> timed x -> timed y ->
  as_number (snd x) = Some qx -> as_number (snd y) = Some qy ->
  float_ltb qy qx = true ->
  tied k x = true -> tied k y = true -> False.
Proof.
  intros Hk Hx Hy Hqx Hqy Hlt Hkx Hky.
  destruct (timed_number k Hk) as (qk & Hqk & Hnk).
  unfold tied in *. rewrite Hqk, Hqx in Hkx. rewrite Hqk, Hqy in Hky.
  apply andb_true_iff in Hkx as [Hkx _]. apply andb_true_iff in Hky as [_ Hky].
  apply negb_true_iff in Hkx, Hky.
  assert (Hnx : qx <> FNaN).
  { destruct (timed_number x Hx) as (q & Hq & Hn). congruence. }
  assert (Hny : qy <> FNaN).
  { destruct (timed_number y Hy) as (q & Hq & Hn). congruence. }
  pose proof (float_ltb_false_le qx qk Hnx Hnk Hkx) as H1.
  pose proof (float_ltb_false_le qk qy Hnk Hny Hky) as H2.
  pose proof (float_le_not_ltb _ _ (float_le_trans _ _ _ H1 H2)) as H3.
  congruence.
Qed.

Lemma insert_entry_tied (k x : entry) (l r : list entry) :
  timed k -> timed x -> Forall timed l ->
  insert_entry x l = Ok r ->
  filter (tied k) r = filter (tied k) (x :: l).
Proof.
  intros Hk Hx. destruct (timed_number x Hx) as (qx & Hqx & _).
  revert r. induction l as [|y l IH]; intros r Hl H.
  - simpl in H. injection H as <-. reflexivity.
  - inversion Hl as [|? ? Hy Hl']; subst.
    destruct (timed_number y Hy) as (qy & Hqy & _).
    simpl in H. rewrite (value_lt_timed y x qy qx Hqy Hqx) in H.
    destruct (float_ltb qy qx) eqn:E.
    + destruct (insert_entry x l) as [r'|e] eqn:Hins; [|discriminate].
      injection H as <-. specialize (IH r' Hl' eq_refl).
      cbn [filter] in *. rewrite IH.
      destruct (tied k x) eqn:Ex, (tied k y) eqn:Ey; try reflexivity.
      exfalso. exact (tied_not_both k x y qx qy Hk Hx Hy Hqx Hqy E Ex Ey).
    + injection H as <-. reflexivity.
Qed.

Lemma py_sorted_tied (k : entry) (l r : list entry) :
  timed k -> Forall timed l ->
  py_sorted l = Ok r ->
  filter (tied k) r = filter (tied k) l.
Proof.
  intro Hk. revert r. induction l as [|x l IH]; intros r Hl H.
  - simpl in H. injection H as <-. reflexivity.
  - inversion Hl as [|? ? Hx Hl']; subst.
    simpl in H. destruct (py_sorted l) as [r'|e] eqn:Hs; [|discriminate].
    destruct (py_sorted_ok l Hl') as (r0 & Hr0 & _ & Ht & _).
    rewrite Hs in Hr0. injection Hr0 as <-.
    rewrite (insert_entry_tied k x r' r Hk Hx Ht H).
    cbn [filter]. now rewrite (IH r' Hl' eq_refl).
Qed.

(** X12.  The ranking is stable: on a working storage whose stored values
    are all times, the players that share a score appear in [get_top5]'s
    ranking in the order in which the scoreboard stores them, that is the
    order in which they were registered. *)
Theorem get_top5_ties_keep_stored_order (fs : storage) (k : entry) :
  storage_ok fs = true ->
  all_times (scoreboard fs) = true ->
  timed k ->
  exists ranked fs',
    get_top5 fs = (Ok (firstn 5 (ranked ++ placeholders (List.length ranked))), fs') /\
    filter (tied k) ranked = filter (tied k) (ranking_entries (scoreboard fs)).
Proof.
  intros Hok Hall Hk.
  destruct (get_top5_run fs Hok Hall) as (ranked & Hsort & Hrun).
  exists ranked. eexists. split; [exact Hrun|].
  exact (py_sorted_tied k _ _ Hk (ranking_entries_timed _ Hall) Hsort).
Qed.

Lemma get_top5_ties_keep_stored_order_witness :
  storage_ok ties_storage = true /\
  all_times (scoreboard ties_storage) = true /\
  timed ("", VFloat (FFin 9999)) /\
  exists ranked fs',
    get_top5 ties_storage
    = (Ok (firstn 5 (ranked ++ placeholders (List.length ranked))), fs') /\
    filter (tied ("", VFloat (FFin 9999))) ranked
    = filter (tied ("", VFloat (FFin 9999))) (ranking_entries (scoreboard ties_storage)).
Proof.
  split; [reflexivity|]. split; [reflexivity|]. split; [reflexivity|].
  exact (get_top5_ties_keep_stored_order ties_storage ("", VFloat (FFin 9999))
           eq_refl eq_refl eq_refl).
Defined.

Lemma value_lt_null_left (a b : value) : a = VNone -> value_lt a b = Raise TypeError.
Proof.
  intros ->. unfold value_lt. simpl. destruct (as_number b); reflexivity.
Qed.

Lemma value_lt_null_right (a : entry) (b : value) :
  time_or_null a -> b = VNone -> value_lt (snd a) b = Raise TypeError.
Proof.
  intros [Ha| ->] ->; [|reflexivity].
  destruct (timed_number a Ha) as (x & Hx & _).
  unfold value_lt. rewrite Hx. simpl.
  destruct (snd a); try discriminate; reflexivity.
Qed.

Lemma no_null_timed (l : list entry) :
  Forall time_or_null l -> existsb is_null l = false -> Forall timed l.
Proof.
  induction 1 as [|x l [Hx|Hx] Hl IH]; simpl; intro H.
  - constructor.
  - apply orb_false_iff in H as [_ H]. constructor; auto.
  - unfold is_null in H. rewrite Hx in H. discriminate.
Qed.

Lemma is_null_spec (e : entry) : is_null e = true -> snd e = VNone.
Proof.
  unfold is_null. destruct (snd e); try discriminate. reflexivity.
Qed.

(** The sort of a list of times and nulls: it raises a [TypeError], or
    returns; and it returns on a list with a null only when that list has
    no second element to compare the null with. *)
Lemma py_sorted_with_null (l : list entry) :
  Forall time_or_null l ->
  py_sorted l = Raise TypeError \/
  (exists r, py_sorted l = Ok r /\ Permutation l r /\
             (existsb is_null l = true -> (List.length l <= 1)%nat)).
Proof.
  induction 1 as [|x l Hx Hl IH]; simpl.
  - right. exists []. repeat split; auto.
  - destruct IH as [->|(r & -> & Hperm & Hone)]; [now left|].
    destruct (existsb is_null l) eqn:Hnull.
    + (* the tail holds a null: it is a single null entry *)
      specialize (Hone eq_refl).
      destruct l as [|y [|z l]]; simpl in *; try discriminate; try lia.
      apply Permutation_length_1_inv in Hperm. subst r. simpl.
      rewrite orb_false_r in Hnull.
      rewrite (value_lt_null_left (snd y) (snd x) (is_null_spec y Hnull)). now left.
    + pose proof (no_null_timed l Hl Hnull) as Ht.
      assert (Htr : Forall timed r).
      { rewrite Forall_forall in *. intros e He. apply Ht.
        exact (Permutation_in e (Permutation_sym Hperm) He). }
      destruct Hx as [Hx|Hx].
      * destruct (insert_entry_ok x r Hx Htr) as (r' & -> & Hperm' & _).
        right. exists r'. repeat split.
        -- apply perm_trans with (x :: r); [now apply perm_skip | exact Hperm'].
        -- rewrite orb_false_r. unfold is_null.
           destruct (timed_number x Hx) as (q & Hq & _).
           destruct (snd x); try discriminate.
      * destruct r as [|y r].
        -- apply Permutation_sym, Permutation_nil in Hperm. subst l.
           right. exists [x]. repeat split; auto.
        -- simpl. inversion Htr as [|? ? Hy _]; subst.
           rewrite (value_lt_null_right y (snd x) (or_introl Hy) Hx). now left.
Qed.

(** X13.  A stored [null] makes the ranking fail: when the file holds a
    scoreboard of at least two players whose values are times except for
    at least one [null], [get_top5] raises a [TypeError] (the sort compares
    the null with a number), and so does a frame on the scores screen: the
    error leaves the loop. *)
Theorem get_top5_null_score_raises
  (fs : storage) (username : string) (t : Q) (s : session) :
  storage_ok fs = true ->
  Forall time_or_null (ranking_entries (scoreboard fs)) ->
  existsb is_null (ranking_entries (scoreboard fs)) = true ->
  (2 <= List.length (scoreboard fs))%nat ->
  game_state s = scores ->
  get_top5 fs = (Raise TypeError, storage_after load_scores fs) /\
  frame username [] t s fs = (Raise TypeError, storage_after load_scores fs).
Proof.
  intros Hok Hall Hnull Hlen Hs.
  assert (Hsort : py_sorted (ranking_entries (scoreboard fs)) = Raise TypeError).
  { destruct (py_sorted_with_null _ Hall) as [H|(r & _ & _ & Hone)]; [exact H|].
    specialize (Hone Hnull). unfold ranking_entries, dict_keys in Hone.
    rewrite !length_map in Hone. lia. }
  assert (Htop : get_top5 fs = (Raise TypeError, storage_after load_scores fs)).
  { destruct (load_scores_ok _ Hok) as (d & fs1 & Hl & Hp & _).
    unfold storage_after, get_top5. set (pad := pad_placeholders 5).
    unfold bind at 1. rewrite Hl.
    unfold bind, lift, ret. simpl. unfold dict_get_default at 1. rewrite Hp.
    now rewrite normalized_ok, Hsort. }
  split; [exact Htop|].
  unfold frame, bind. simpl. unfold lift, state_logic. rewrite Hs. simpl.
  rewrite Hs. now rewrite Htop.
Qed.

Lemma get_top5_null_score_raises_witness :
  storage_ok null_score_storage = true /\
  Forall time_or_null (ranking_entries (scoreboard null_score_storage)) /\
  existsb is_null (ranking_entries (scoreboard null_score_storage)) = true /\
  (2 <= List.length (scoreboard null_score_storage))%nat /\
  game_state (mkSession scores None None None None NoMessage) = scores /\
  get_top5 null_score_storage = (Raise TypeError, null_score_storage) /\
  frame "alice" [] 10 (mkSession scores None None None None NoMessage)
        null_score_storage
  = (Raise TypeError, null_score_storage).
Proof.
  assert (Hall : Forall time_or_null (ranking_entries (scoreboard null_score_storage))).
  { apply Forall_cons; [right; reflexivity|].
    apply Forall_cons; [left; reflexivity|]. apply Forall_nil. }
  assert (Hlen : (2 <= List.length (scoreboard null_score_storage))%nat).
  { simpl. lia. }
  split; [reflexivity|]. split; [exact Hall|]. split; [reflexivity|].
  split; [exact Hlen|]. split; [reflexivity|].
  exact (get_top5_null_score_raises null_score_storage "alice" 10
           (mkSession scores None None None None NoMessage)
           eq_refl Hall eq_refl Hlen eq_refl).
Defined.

(* ------------------------------------------------------------------ *)
(** ** More about the username *)

Lemma lower_char_idem (c : ascii) : lower_char (lower_char c) = lower_char c.
Proof.
  destruct c as [[] [] [] [] [] [] [] []]; reflexivity.
Qed.

Lemma is_space_lower_char (c : ascii) : is_space (lower_char c) = is_space c.
Proof.
  destruct c as [[] [] [] [] [] [] [] []]; reflexivity.
Qed.

Lemma lower_idem (s : string) : lower (lower s) = lower s.
Proof.
  induction s as [|c s IH]; simpl; [reflexivity|].
  now rewrite lower_char_idem, IH.
Qed.

Lemma first_is_space_lower (s : string) : first_is_space (lower s) = first_is_space s.
Proof.
  destruct s; simpl; [reflexivity | apply is_space_lower_char].
Qed.

Lemma last_is_space_lower (s : string) : last_is_space (lower s) = last_is_space s.
Proof.
  induction s as [|c s IH]; simpl; [reflexivity|].
  destruct s as [|c' s]; simpl in *; [apply is_space_lower_char | exact IH].
Qed.

Lemma lower_not_empty (s : string) : s <> "" -> lower s <> "".
Proof.
  destruct s; simpl; [congruence | discriminate].
Qed.

Lemma lstrip_fixed (s : string) : first_is_space s = false -> lstrip s = s.
Proof.
  destruct s; simpl; [reflexivity|]. now intros ->.
Qed.

Lemma rstrip_fixed (s : string) : last_is_space s = false -> rstrip s = s.
Proof.
  induction s as [|c s IH]; simpl; [reflexivity|].
  destruct s as [|c' s].
  - simpl. now intros ->.
  - intro H. rewrite (IH H). reflexivity.
Qed.

Lemma strip_clean (s : string) :
  first_is_space (strip s) = false /\ last_is_space (strip s) = false.
Proof.
  unfold strip.
  destruct (lstrip_spec s) as (pre & _ & _ & Hfirst).
  destruct (rstrip_spec (lstrip s)) as (post & _ & _ & Hlast & Hkeep). auto.
Qed.

(** X14.  Whatever is typed, the username that [ask_username_console]
    returns is in normal form: it is not empty, has no white space at
    either end, is unchanged by [lower], and typing it at the prompt gives
    the same username again (so a returning player resumes the same
    record). *)
Theorem username_is_normal (typed : outcome string) (name : string) :
  ask_username_console typed = Ok name ->
  name <> "" /\
  first_is_space name = false /\ last_is_space name = false /\
  lower name = name /\
  ask_username_console (Ok name) = Ok name.
Proof.
  intro H.
  assert (Hx : exists x, name = lower x /\ x <> "" /\
                         first_is_space x = false /\ last_is_space x = false).
  { unfold ask_username_console in H. destruct typed as [line|e].
    - destruct (strip_clean line) as [Hf Hl].
      destruct (String.eqb (strip line) "") eqn:E; injection H as <-.
      + exists "guest". repeat split. discriminate.
      + exists (strip line). repeat split; auto.
        intro Hs. rewrite Hs in E. discriminate.
    - destruct (any_exception e); [|discriminate]. simpl in H. injection H as <-.
      exists "guest". repeat split. discriminate. }
  destruct Hx as (x & -> & Hne & Hf & Hl).
  assert (Hf' : first_is_space (lower x) = false) by now rewrite first_is_space_lower.
  assert (Hl' : last_is_space (lower x) = false) by now rewrite last_is_space_lower.
  repeat split; auto.
  - now apply lower_not_empty.
  - apply lower_idem.
  - unfold ask_username_console, strip.
    rewrite (lstrip_fixed _ Hf'), (rstrip_fixed _ Hl').
    destruct (String.eqb (lower x) "") eqn:E.
    + apply String.eqb_eq in E. exfalso. exact (lower_not_empty x Hne E).
    + now rewrite lower_idem.
Qed.

Lemma username_is_normal_witness :
  ask_username_console (Ok "  Ana MARIA  ") = Ok "ana maria" /\
  "ana maria" <> "" /\
  first_is_space "ana maria" = false /\ last_is_space "ana maria" = false /\
  lower "ana maria" = "ana maria" /\
  ask_username_console (Ok "ana maria") = Ok "ana maria".
Proof.
  split; [reflexivity|].
  exact (username_is_normal (Ok "  Ana MARIA  ") "ana maria" eq_refl).
Defined.

(** X15.  The start of the program registers the player: on a working
    storage, whatever username the prompt gave, it has a record after the
    start (the best time it had before, or unset for a new player), and
    the records of all other players are as before. *)
Theorem startup_registers_player (typed : outcome string) (name : string) (fs : storage) :
  storage_ok fs = true ->
  ask_username_console typed = Ok name ->
  exists fs',
    startup typed fs = (Ok name, fs') /\
    storage_ok fs' = true /\
    record_of fs' name = Some (best fs name) /\
    forall v, v <> name -> record_of fs' v = record_of fs v.
Proof.
  intros Hok Hname.
  destruct (register_or_get_user_ok name fs Hok) as (fs' & Hrun & Hok' & Hsb).
  exists fs'. unfold startup, bind, lift, ret. rewrite Hname, Hrun.
  split; [reflexivity|]. split; [exact Hok'|].
  unfold record_of, best, dict_get_default in *. rewrite Hsb.
  destruct (dict_get name (scoreboard fs)) as [x|] eqn:E.
  - split; [exact E | reflexivity].
  - split; [apply dict_get_set_same|].
    intros v Hv. apply dict_get_set_other. congruence.
Qed.

Lemma startup_registers_player_witness :
  storage_ok bob_carol_storage = true /\
  ask_username_console (Ok " Erin ") = Ok "erin" /\
  exists fs',
    startup (Ok " Erin ") bob_carol_storage = (Ok "erin", fs') /\
    storage_ok fs' = true /\
    record_of fs' "erin" = Some (best bob_carol_storage "erin") /\
    forall v, v <> "erin" -> record_of fs' v = record_of bob_carol_storage v.
Proof.
  split; [reflexivity|]. split; [reflexivity|].
  exact (startup_registers_player (Ok " Erin ") "erin" bob_carol_storage eq_refl eq_refl).
Defined.

(* ------------------------------------------------------------------ *)
(** ** More about the main loop *)

(** [update_score] raises nothing but what [load_scores] raises, and
    every such error is an [Exception]. *)
Lemma update_score_raises_exceptions_only (u : string) (t : pyfloat) (fs : storage) :
  forall e fs', update_score u t fs = (Raise e, fs') -> any_exception e = true.
Proof.
  intros e fs'. pose proof (load_scores_cases fs) as Hload.
  destruct (load_scores fs) as [[db|e0] fs1] eqn:Hl.
  - unfold has_players_mapping in Hload.
    destruct db as [| | | | | |d]; try discriminate.
    destruct (dict_get "players" d) as [pv|] eqn:Hp; try discriminate.
    destruct pv as [| | | | | |p]; try discriminate.
    rewrite (update_score_run u t _ _ _ _ Hl Hp).
    destruct (float_lt_value t (dict_get_default u unset p)) as [[|]|e1]; discriminate.
  - destruct Hload as (_ & _ & Hesc).
    unfold update_score, bind at 1. rewrite Hl. intro H. injection H as <- _.
    destruct Hesc as [(-> & _)|[(-> & _)|(-> & _)]]; reflexivity.
Qed.

(** How the response click is handled. *)
Lemma handle_event_response
  (username : string) (ev : env) (s : session) (fs : storage) (st : Q) :
  game_state s = click ->
  start_time s = Some st ->
  handle_event username ev (MOUSEBUTTONDOWN 1) s fs
  = (Ok (mkSession result (Some st) (Some (now ev)) (waiting_delay s) (delay_start s)
           (message_for (round3 (now ev - st))
              (fst (update_score username (FFin (round3 (now ev - st))) fs)))),
     storage_after (update_score username (FFin (round3 (now ev - st)))) fs).
Proof.
  intros Hs Hst. unfold handle_event. rewrite Hs, Hst.
  unfold bind, lift, try_except, ret, time_sub, storage_after.
  pose proof (update_score_raises_exceptions_only username
                (FFin (round3 (now ev - st))) fs) as Hraise.
  destruct (update_score username (FFin (round3 (now ev - st))) fs) as [[b|e] fs1].
  - destruct b; reflexivity.
  - rewrite (Hraise e fs1 eq_refl). reflexivity.
Qed.

(** X16.  In the state that awaits the response, a left click always ends
    the round, whatever the storage holds: the session moves to [result]
    with the time of the click, the storage is what
    [update_score username reaction] leaves, and the message tells how
    that call ended (a new best, no improvement, or the error it raised),
    where [reaction] is the rounded time since the stimulus. *)
Theorem response_click_ends_round
  (username : string) (ev : env) (s : session) (fs : storage) (st : Q) :
  game_state s = click ->
  start_time s = Some st ->
  handle_event username ev (MOUSEBUTTONDOWN 1) s fs
  = (Ok (mkSession result (Some st) (Some (now ev)) (waiting_delay s) (delay_start s)
           (message_for (round3 (now ev - st))
              (fst (update_score username (FFin (round3 (now ev - st))) fs)))),
     storage_after (update_score username (FFin (round3 (now ev - st)))) fs).
Proof.
  exact (handle_event_response username ev s fs st).
Qed.

Lemma response_click_ends_round_witness :
  game_state click_session = click /\
  start_time click_session = Some 104 /\
  handle_event "alice" (mkEnv false 4 (104253 # 1000)) (MOUSEBUTTONDOWN 1)
               click_session alice_new_storage
  = (Ok (mkSession result (Some 104) (Some (104253 # 1000)) (Some 4) (Some 100)
           (NewBest (253 # 1000))),
     mkStorage
       (Some (Parsed (VDict [("players",
                              VDict [("alice", VFloat (FFin (253 # 1000)))])])))
       true true 2).
Proof.
  split; [reflexivity|]. split; [reflexivity|].
  exact (response_click_ends_round "alice" (mkEnv false 4 (104253 # 1000))
           click_session alice_new_storage 104 eq_refl eq_refl).
Defined.

(** The events of a frame that starts outside of the [click] state never
    meet that state, and leave the storage alone. *)
Lemma handle_events_outside_click
  (username : string) (evs : list (env * event)) (s : session) (fs : storage) :
  game_state s <> click ->
  exists o, handle_events username evs s fs = (o, fs) /\
            forall s', o = Ok s' -> game_state s' <> click.
Proof.
  revert s. induction evs as [|[ev e] evs IH]; intros s Hs; simpl.
  - exists (Ok s). split; [reflexivity|]. intros s' H. now injection H as <-.
  - unfold bind.
    assert (He : (exists s1, handle_event username ev e s fs = (Ok s1, fs) /\
                             game_state s1 <> click) \/
                 handle_event username ev e s fs = (Raise SystemExit, fs)).
    { destruct e as [|[|[|b]]|]; simpl; try (left; exists s; now split);
        try (now right).
      destruct (game_state s) eqn:E; try congruence.
      - destruct (over_scores_button ev); left; eexists; (split; [reflexivity|]);
          simpl; discriminate.
      - left. exists s. split; [reflexivity | congruence].
      - left. eexists. split; [reflexivity|]. simpl. discriminate.
      - left. eexists. split; [reflexivity|]. simpl. discriminate. }
    destruct He as [(s1 & -> & Hs1)| ->].
    + now apply IH.
    + exists (Raise SystemExit). split; [reflexivity | discriminate].
Qed.

(** X17.  Scores are written by the response click only: a frame that
    starts in any state other than [click] never calls [update_score].
    Whatever its events are, the storage afterwards is the one before, or
    what [load_scores] makes of it when the scores screen is drawn. *)
Theorem frame_outside_click_writes_no_score
  (username : string) (evs : list (env * event)) (t : Q) (s : session) (fs : storage) :
  game_state s <> click ->
  storage_after (frame username evs t s) fs = fs \/
  storage_after (frame username evs t s) fs = storage_after load_scores fs.
Proof.
  intro Hs.
  assert (H : forall X, X = frame username evs t s fs ->
                        snd X = fs \/ snd X = storage_after load_scores fs).
  { intros X ->. unfold frame, bind.
    destruct (handle_events_outside_click username evs s fs Hs) as (o & -> & _).
    destruct o as [s1|e]; [|now left].
    unfold lift. destruct (state_logic t s1) as [s2|e]; [|now left].
    destruct (game_state s2); try (now left).
    right. rewrite <- (get_top5_storage fs). unfold storage_after.
    destruct (get_top5 fs) as [[top|e] fs1]; reflexivity. }
  exact (H _ eq_refl).
Qed.

Lemma frame_outside_click_writes_no_score_witness :
  game_state initial_session <> click /\
  (storage_after (frame "alice" [(mkEnv true 4 10, MOUSEBUTTONDOWN 1)] 10
                        initial_session) garbage_storage
   = garbage_storage \/
   storage_after (frame "alice" [(mkEnv true 4 10, MOUSEBUTTONDOWN 1)] 10
                        initial_session) garbage_storage
   = storage_after load_scores garbage_storage).
Proof.
  assert (Hs : game_state initial_session <> click) by discriminate.
  split; [exact Hs|].
  exact (frame_outside_click_writes_no_score "alice"
           [(mkEnv true 4 10, MOUSEBUTTONDOWN 1)] 10 initial_session
           garbage_storage Hs).
Defined.

(** While the session waits, every event but the closing of the window is
    ignored. *)
Lemma handle_events_while_waiting
  (username : string) (evs : list (env * event)) (s : session) (fs : storage) :
  game_state s = waiting ->
  no_quit evs = true ->
  handle_events username evs s fs = (Ok s, fs).
Proof.
  intro Hs. induction evs as [|[ev e] evs IH]; simpl; intro Hq; [reflexivity|].
  apply andb_true_iff in Hq as [He Hq].
  unfold bind.
  assert (H1 : handle_event username ev e s fs = (Ok s, fs)).
  { destruct e as [|[|[|b]]|]; try discriminate; try reflexivity.
    unfold handle_event. now rewrite Hs. }
  rewrite H1. now apply IH.
Qed.

(** X18.  No input shortens the countdown: while the session waits, a
    frame without a closing event leaves the session and the storage as
    they are as long as less than [waiting_delay] has passed since
    [delay_start], whatever its events; once the delay has passed, the
    frame moves to [click] and records its clock reading as the time of
    the stimulus. *)
Theorem countdown_ignores_input
  (username : string) (evs : list (env * event)) (t w d : Q)
  (s : session) (fs : storage) :
  game_state s = waiting ->
  waiting_delay s = Some w ->
  delay_start s = Some d ->
  no_quit evs = true ->
  frame username evs t s fs
  = (Ok (if Qle_bool w (t - d)
         then mkSession click (Some t) (end_time s) (Some w) (Some d)
                (last_update_message s)
         else s),
     fs).
Proof.
  intros Hs Hw Hd Hq. unfold frame, bind.
  rewrite (handle_events_while_waiting username evs s fs Hs Hq).
  unfold lift, state_logic. rewrite Hs, Hw, Hd.
  destruct (Qle_bool w (t - d)); simpl; [reflexivity|].
  destruct s as [g st et wd ds msg]. simpl in *. subst. reflexivity.
Qed.

Lemma countdown_ignores_input_witness :
  game_state waiting_session = waiting /\
  waiting_delay waiting_session = Some 5 /\
  delay_start waiting_session = Some 100 /\
  no_quit [(mkEnv true 3 101, MOUSEBUTTONDOWN 1); (mkEnv false 3 102, OtherEvent);
           (mkEnv false 3 103, MOUSEBUTTONDOWN 3)] = true /\
  frame "alice"
        [(mkEnv true 3 101, MOUSEBUTTONDOWN 1); (mkEnv false 3 102, OtherEvent);
         (mkEnv false 3 103, MOUSEBUTTONDOWN 3)]
        104 waiting_session bob_carol_storage
  = (Ok waiting_session, bob_carol_storage).
Proof.
  split; [reflexivity|]. split; [reflexivity|]. split; [reflexivity|].
  split; [reflexivity|].
  exact (countdown_ignores_input "alice"
           [(mkEnv true 3 101, MOUSEBUTTONDOWN 1); (mkEnv false 3 102, OtherEvent);
            (mkEnv false 3 103, MOUSEBUTTONDOWN 3)]
           104 5 100 waiting_session bob_carol_storage
           eq_refl eq_refl eq_refl eq_refl).
Defined.

Lemma handle_event_keeps_invariant
  (username : string) (ev : env) (e : event) (s : session) (fs : storage) :
  loop_invariant s fs ->
  is_quit (ev, e) = false ->
  exists s' fs', handle_event username ev e s fs = (Ok s', fs') /\ loop_invariant s' fs'.
Proof.
  intros (Hts & Hok & Hall) Hq.
  destruct e as [|[|[|b]]|]; try discriminate;
    try (exists s, fs; split; [reflexivity | now repeat split]).
  unfold handle_event. destruct (game_state s) eqn:Hs.
  - destruct (over_scores_button ev); eexists; eexists;
      (split; [reflexivity | now repeat split]).
  - exists s, fs. split; [reflexivity | now repeat split].
  - unfold timestamps_set in Hts. rewrite Hs in Hts.
    destruct (start_time s) as [st|] eqn:Hst; [|discriminate].
    unfold bind, lift, time_sub, try_except, ret.
    destruct (update_score_ok username (FFin (round3 (now ev - st))) fs Hok)
      as (b & fs' & -> & Hok' & _ & Hset & Hkeep & _).
    assert (Hall' : all_times (scoreboard fs') = true).
    { destruct b.
      - rewrite (Hset eq_refl). now apply all_times_set.
      - now rewrite (Hkeep eq_refl). }
    destruct b; eexists; eexists; (split; [reflexivity | now repeat split]).
  - eexists; eexists. split; [reflexivity | now repeat split].
  - eexists; eexists. split; [reflexivity | now repeat split].
Qed.

Lemma handle_events_keep_invariant
  (username : string) (evs : list (env * event)) (s : session) (fs : storage) :
  loop_invariant s fs ->
  no_quit evs = true ->
  exists s' fs', handle_events username evs s fs = (Ok s', fs') /\ loop_invariant s' fs'.
Proof.
  revert s fs. induction evs as [|[ev e] evs IH]; intros s fs Hinv Hq; simpl.
  - exists s, fs. now split.
  - apply andb_true_iff in Hq as [He Hq]. apply negb_true_iff in He.
    destruct (handle_event_keeps_invariant username ev e s fs Hinv He)
      as (s1 & fs1 & H1 & Hinv1).
    unfold bind. rewrite H1. now apply IH.
Qed.

Lemma state_logic_keeps_timestamps (t : Q) (s : session) :
  timestamps_set s = true ->
  exists s', state_logic t s = Ok s' /\ timestamps_set s' = true.
Proof.
  unfold state_logic, timestamps_set. intro H.
  destruct (game_state s) eqn:Hs; try (exists s; split; [reflexivity|]; now rewrite Hs).
  destruct (waiting_delay s) as [w|] eqn:Hw; [|discriminate].
  destruct (Qle_bool w _); eexists; (split; [reflexivity|]); simpl; auto;
    now rewrite Hw.
Qed.

Lemma frame_keeps_invariant
  (username : string) (evs : list (env * event)) (t : Q) (s : session) (fs : storage) :
  loop_invariant s fs ->
  no_quit evs = true ->
  exists s' fs', frame username evs t s fs = (Ok s', fs') /\ loop_invariant s' fs'.
Proof.
  intros Hinv Hq.
  destruct (handle_events_keep_invariant username evs s fs Hinv Hq)
    as (s1 & fs1 & H1 & (Hts1 & Hok1 & Hall1)).
  destruct (state_logic_keeps_timestamps t s1 Hts1) as (s2 & H2 & Hts2).
  unfold frame, bind. rewrite H1. unfold lift. rewrite H2.
  destruct (game_state s2) eqn:Hs2;
    try (exists s2, fs1; split; [reflexivity | now repeat split]).
  destruct (get_top5_run fs1 Hok1 Hall1) as (ranked & _ & ->).
  exists s2, (storage_after load_scores fs1). split; [reflexivity|].
  destruct (load_scores_ok _ Hok1) as (d & fs2 & Hl & _ & Hsb & Hok2 & _).
  unfold storage_after. rewrite Hl. simpl.
  repeat split; auto. now rewrite Hsb.
Qed.

(** X19.  The loop does not crash: on a working storage whose stored
    values are all times, from a session whose timestamps are set (the
    initial one, say), any number of frames without a closing event runs
    without raising, whatever the events and the clock readings are; the
    session, the storage and the stored values stay that way. *)
Theorem loop_never_raises
  (username : string) (frames : list (list (env * event) * Q))
  (s : session) (fs : storage) :
  timestamps_set s = true ->
  storage_ok fs = true ->
  all_times (scoreboard fs) = true ->
  no_quit_frames frames = true ->
  exists s' fs',
    run_frames username frames s fs = (Ok s', fs') /\
    timestamps_set s' = true /\ storage_ok fs' = true /\
    all_times (scoreboard fs') = true.
Proof.
  intros Hts Hok Hall Hq.
  assert (Hinv : loop_invariant s fs) by now repeat split.
  clear Hts Hok Hall. revert s fs Hinv.
  induction frames as [|[evs t] frames IH]; intros s fs Hinv; simpl.
  - exists s, fs. split; [reflexivity | exact Hinv].
  - simpl in Hq. apply andb_true_iff in Hq as [Hq1 Hq].
    destruct (frame_keeps_invariant username evs t s fs Hinv Hq1)
      as (s1 & fs1 & H1 & Hinv1).
    unfold bind. rewrite H1. now apply IH.
Qed.

Lemma loop_never_raises_witness :
  timestamps_set initial_session = true /\
  storage_ok alice_new_storage = true /\
  all_times (scoreboard alice_new_storage) = true /\
  no_quit_frames round_frames = true /\
  exists s' fs',
    run_frames "alice" round_frames initial_session alice_new_storage = (Ok s', fs') /\
    timestamps_set s' = true /\ storage_ok fs' = true /\
    all_times (scoreboard fs') = true.
Proof.
  split; [reflexivity|]. split; [reflexivity|]. split; [reflexivity|].
  split; [reflexivity|].
  exact (loop_never_raises "alice" round_frames initial_session alice_new_storage
           eq_refl eq_refl eq_refl eq_refl).
Defined.

(** X20.  A round measures from the stimulus: from the start screen, a
    click beside the scores button starts the countdown with the delay
    that was drawn; the frame in which that delay has passed shows the
    stimulus; and the response click ends in [result] with the score
    [round3 (click time - clock reading of the stimulus frame)] handed to
    [update_score], whose storage and outcome the round leaves. *)
Theorem round_measures_from_stimulus
  (username : string) (e1 e3 : env) (t1 t2 t3 : Q) (s : session) (fs : storage) :
  game_state s = start ->
  over_scores_button e1 = false ->
  t1 - now e1 < uniform_3_7 e1 ->
  uniform_3_7 e1 <= t2 - now e1 ->
  run_frames username
    [([(e1, MOUSEBUTTONDOWN 1)], t1); ([], t2); ([(e3, MOUSEBUTTONDOWN 1)], t3)] s fs
  = (Ok (mkSession result (Some t2) (Some (now e3))
           (Some (uniform_3_7 e1)) (Some (now e1))
           (message_for (round3 (now e3 - t2))
              (fst (update_score username (FFin (round3 (now e3 - t2))) fs)))),
     storage_after (update_score username (FFin (round3 (now e3 - t2)))) fs).
Proof.
  intros Hs Hoff Hearly Hlate.
  assert (H1 : Qle_bool (uniform_3_7 e1) (t1 - now e1) = false).
  { destruct (Qle_bool _ _) eqn:E; [|reflexivity].
    apply Qle_bool_iff in E. exfalso. exact (Qlt_not_le _ _ Hearly E). }
  assert (H2 : Qle_bool (uniform_3_7 e1) (t2 - now e1) = true)
    by now apply Qle_bool_iff.
  cbn [run_frames]. unfold bind at 1.
  unfold frame at 1, bind at 1. cbn [handle_events]. unfold bind at 1.
  unfold handle_event at 1. rewrite Hs, Hoff.
  unfold ret at 1 2. unfold bind at 1, lift at 1, state_logic at 1.
  cbn [game_state waiting_delay delay_start start_time end_time last_update_message].
  rewrite H1. cbn [game_state]. unfold ret at 1.
  unfold bind at 1.
  unfold frame at 1, bind at 1. cbn [handle_events]. unfold ret at 1.
  unfold bind at 1, lift at 1, state_logic at 1.
  cbn [game_state waiting_delay delay_start start_time end_time last_update_message].
  rewrite H2. cbn [game_state]. unfold ret at 1.
  unfold bind at 1.
  unfold frame at 1, bind at 1. cbn [handle_events]. unfold bind at 1.
  rewrite (handle_event_response username e3
             (mkSession click (Some t2) (end_time s) (Some (uniform_3_7 e1))
                (Some (now e1)) (last_update_message s))
             fs t2 eq_refl eq_refl).
  reflexivity.
Qed.

Lemma round_measures_from_stimulus_witness :
  game_state initial_session = start /\
  over_scores_button (mkEnv false 4 100) = false /\
  100 - now (mkEnv false 4 100) < uniform_3_7 (mkEnv false 4 100) /\
  uniform_3_7 (mkEnv false 4 100) <= 104 - now (mkEnv false 4 100) /\
  run_frames "alice"
    [([(mkEnv false 4 100, MOUSEBUTTONDOWN 1)], 100); ([], 104);
     ([(mkEnv false 4 (104253 # 1000), MOUSEBUTTONDOWN 1)], 105)]
    initial_session alice_new_storage
  = (Ok (mkSession result (Some 104) (Some (104253 # 1000)) (Some 4) (Some 100)
           (NewBest (253 # 1000))),
     mkStorage
       (Some (Parsed (VDict [("players",
                              VDict [("alice", VFloat (FFin (253 # 1000)))])])))
       true true 2).
Proof.
  assert (Hearly : 100 - now (mkEnv false 4 100) < uniform_3_7 (mkEnv false 4 100))
    by reflexivity.
  assert (Hlate : uniform_3_7 (mkEnv false 4 100) <= 104 - now (mkEnv false 4 100))
    by (simpl; unfold Qle; simpl; lia).
  split; [reflexivity|]. split; [reflexivity|].
  split; [exact Hearly|]. split; [exact Hlate|].
  exact (round_measures_from_stimulus "alice" (mkEnv false 4 100)
           (mkEnv false 4 (104253 # 1000)) 100 104 105 initial_session
           alice_new_storage eq_refl eq_refl Hearly Hlate).
Defined.

(* ------------------------------------------------------------------ *)
(** ** What an improving update writes *)

(** X21.  An improving [update_score] rewrites the file exactly once, with
    the document it read changed in that one record only: on a storage
    that can be read and written and holds a scoreboard document, the
    storage afterwards holds the same document with the record of [u] set
    to the new time, one more write is counted, every other top-level key
    of the document has its value, and the other players keep theirs. *)
Theorem update_score_writes_one_record
  (u : string) (t : pyfloat) (fs : storage) (d p : dict) :
  readable fs = true ->
  writable fs = true ->
  file fs = Some (Parsed (VDict d)) ->
  dict_get "players" d = Some (VDict p) ->
  improves t (dict_get_default u unset p) ->
  exists d',
    update_score u t fs = (Ok true, written (VDict d') fs) /\
    dict_get "players" d' = Some (VDict (dict_set u (VFloat t) p)) /\
    (forall k, k <> "players" -> dict_get k d' = dict_get k d) /\
    (forall v, v <> u -> dict_get v (dict_set u (VFloat t) p) = dict_get v p) /\
    dict_keys d' = dict_keys d.
Proof.
  intros Hr Hw Hf Hp Himp.
  assert (Hl : load_scores fs = (Ok (VDict d), fs)).
  { rewrite (load_scores_exists _ _ Hf). now apply read_scores_valid with (p := p). }
  exists (dict_set "players" (VDict (dict_set u (VFloat t) p)) d).
  rewrite (update_score_run u t _ _ _ _ Hl Hp).
  apply float_lt_value_spec in Himp. rewrite Himp.
  unfold storage_after, with_record. rewrite save_scores_run, Hw.
  split; [reflexivity|]. split; [apply dict_get_set_same|].
  split; [|split].
  - intros k Hk. apply dict_get_set_other. congruence.
  - intros v Hv. apply dict_get_set_other. congruence.
  - rewrite dict_keys_set. unfold dict_mem. now rewrite Hp.
Qed.

Lemma update_score_writes_one_record_witness :
  readable bob_carol_storage = true /\
  writable bob_carol_storage = true /\
  improves (FFin (1 # 10))
    (dict_get_default "carol" unset
       [("bob", VFloat (FFin (3 # 10))); ("carol", VFloat (FFin (21 # 100)))]) /\
  exists d',
    update_score "carol" (FFin (1 # 10)) bob_carol_storage
    = (Ok true, written (VDict d') bob_carol_storage) /\
    dict_get "players" d'
    = Some (VDict (dict_set "carol" (VFloat (FFin (1 # 10)))
                     [("bob", VFloat (FFin (3 # 10)));
                      ("carol", VFloat (FFin (21 # 100)))])) /\
    (forall k, k <> "players" ->
               dict_get k d'
               = dict_get k [("players",
                              VDict [("bob", VFloat (FFin (3 # 10)));
                                     ("carol", VFloat (FFin (21 # 100)))])]) /\
    (forall v, v <> "carol" ->
               dict_get v (dict_set "carol" (VFloat (FFin (1 # 10)))
                             [("bob", VFloat (FFin (3 # 10)));
                              ("carol", VFloat (FFin (21 # 100)))])
               = dict_get v [("bob", VFloat (FFin (3 # 10)));
                             ("carol", VFloat (FFin (21 # 100)))]) /\
    dict_keys d'
    = dict_keys [("players",
                  VDict [("bob", VFloat (FFin (3 # 10)));
                         ("carol", VFloat (FFin (21 # 100)))])].
Proof.
  assert (Himp : improves (FFin (1 # 10))
                   (dict_get_default "carol" unset
                      [("bob", VFloat (FFin (3 # 10)));
                       ("carol", VFloat (FFin (21 # 100)))])) by reflexivity.
  split; [reflexivity|]. split; [reflexivity|]. split; [exact Himp|].
  exact (update_score_writes_one_record "carol" (FFin (1 # 10)) bob_carol_storage
           [("players", VDict [("bob", VFloat (FFin (3 # 10)));
                               ("carol", VFloat (FFin (21 # 100)))])]
           [("bob", VFloat (FFin (3 # 10))); ("carol", VFloat (FFin (21 # 100)))]
           eq_refl eq_refl eq_refl eq_refl Himp).
Defined.
